(** * Session Master AI: the session dashboard and the chat view

    A shallow embedding of the two React components that talk to the
    managed backend:

    - [SessionDashboard.createSession] / [fetchSessions]
      (src/components/SessionDashboard.tsx), and
    - [ChatInterface.sendMessage] / [fetchMessages] and the image and voice
      entry points (the chat view component),

    together with the two tables of the migration they read and write.

    An [async] function is embedded as the chain of its synchronous
    segments: a segment runs to the next [await], where it records the
    remote request it issued and parks its continuation; the continuation
    is resumed when the environment settles the request.  A closure reads
    the component state of the render that created it, while a setter
    writes the live state: the embedding keeps the two apart. *)

From Stdlib Require Import String Ascii List Bool Arith Lia Sorted Permutation.
Import ListNotations.
Open Scope string_scope.
Open Scope nat_scope.
Open Scope bool_scope.
Open Scope list_scope.

(* ===================================================================== *)
(** ** JavaScript values *)
(* ===================================================================== *)

Module Js.

(** Strings are sequences of 8-bit code units: the Latin-1 range of a
    JavaScript string.  In that range [String.prototype.trim] removes
    TAB, LF, VT, FF, CR, SPACE and NO-BREAK SPACE. *)
Definition is_white_space (c : ascii) : bool :=
  match nat_of_ascii c with
  | 9 | 10 | 11 | 12 | 13 | 32 | 160 => true
  | _ => false
  end.

Fixpoint trimStart (s : string) : string :=
  match s with
  | EmptyString => EmptyString
  | String c s' => if is_white_space c then trimStart s' else s
  end.

Fixpoint trimEnd (s : string) : string :=
  match s with
  | EmptyString => EmptyString
  | String c s' =>
      match trimEnd s' with
      | EmptyString => if is_white_space c then EmptyString else String c EmptyString
      | t => String c t
      end
  end.

Definition trim (s : string) : string := trimEnd (trimStart s).

(** Truthiness of a string: only the empty string is falsy. *)
Definition truthy (s : string) : bool :=
  match s with EmptyString => false | String _ _ => true end.

(** Truthiness of an optional string argument ([undefined] is falsy, and
    so is the empty string). *)
Definition truthy_opt (o : option string) : bool :=
  match o with None => false | Some s => truthy s end.

(** [a || b] on strings. *)
Definition or_else (a b : string) : string := if truthy a then a else b.

(** [data || []] on a nullable array. *)
Definition or_nil {A : Type} (o : option (list A)) : list A :=
  match o with None => [] | Some l => l end.

(** Every code unit of [s] is white space. *)
Fixpoint all_white_space (s : string) : bool :=
  match s with
  | EmptyString => true
  | String c s' => is_white_space c && all_white_space s'
  end.

End Js.

(* ===================================================================== *)
(** ** The backend: tables, requests and replies *)
(* ===================================================================== *)

Module Backend.

(** [message_type TEXT NOT NULL CHECK (message_type IN ('text','image','voice'))] *)
Inductive message_type_t := text | image | voice.

(** Row identifiers (UUIDs) are opaque tokens, here numbers; timestamps
    count the ticks of the server clock. *)

(** A row of [public.sessions]. *)
Record session := Session {
  s_id : nat;
  s_user_id : string;
  s_name : string;
  s_system_prompt : option string;
  s_created_at : nat;
  s_updated_at : nat
}.

(** A row of [public.chat_messages]. *)
Record chat_message := ChatMessage {
  id : nat;
  session_id : nat;
  user_id : string;
  content : string;
  message_type : message_type_t;
  ai_response : option string;
  image_url : option string;
  created_at : nat
}.

(** The two tables as the signed-in user sees them, the server clock that
    [now()] reads and the source of fresh row identifiers. *)
Record store := Store {
  sessions : list session;
  chat_messages : list chat_message;
  clock : nat;
  next_id : nat
}.

(** The object passed to [.insert([...])] on [chat_messages]. *)
Record new_chat_message := NewChatMessage {
  n_session_id : nat;
  n_user_id : string;
  n_content : string;
  n_message_type : message_type_t;
  n_ai_response : option string
}.

(** The object passed to [.insert([...])] on [sessions]. *)
Record new_session := NewSession {
  n_name : string;
  n_system_prompt : string;
  n_owner : string
}.

(** The requests the two components await: remote calls to the backend,
    and the two platform calls of the chat view (microphone, file reader). *)
Inductive request :=
| AuthGetUser
| SelectSessions (ascending : bool)
    (* .from('sessions').select('*').order('updated_at', { ascending }) *)
| InsertSession (row : new_session)
| SelectSession (sid : nat)
    (* .select('name, system_prompt').eq('id', sid).single() *)
| SelectChatMessages (sid : nat) (ascending : bool)
    (* .select('*').eq('session_id', sid).order('created_at', { ascending }) *)
| InvokeGeminiChat (message : string) (sid : nat) (messageType : message_type_t)
                   (imageData : option string) (systemPrompt : option string)
| InsertChatMessage (row : new_chat_message)
| UpdateSessionTimestamp (sid : nat)
    (* .update({ updated_at: ... }).eq('id', sid) *)
| InvokeTranscribe (audio : string)
| GetUserMedia
| RecorderStop
    (* mediaRecorder.stop(), its onstop and the reader's onloadend *)
| ReadAsDataURL (payload : string).

(** What [supabase.functions.invoke] resolves to: an error, or a body
    that may be [null]; the field read from the body may be missing. *)
Inductive invoke_result :=
| InvokeError
| InvokeData (body : option (option string)).

(** How the environment settles a pending request. *)
Inductive outcome :=
| O_user (user : option string)     (* data.user: null, or a user and its id *)
| O_invoke (r : invoke_result)
| O_store (ok : bool)                (* the store performs the statement, or fails *)
| O_media (granted : bool)
| O_recorded (audio : string)        (* the base64 payload of the recording *)
| O_loaded.

(** The value delivered to the awaiting continuation. *)
Inductive reply :=
| R_user (user : option string)
| R_invoke (r : invoke_result)
| R_sessions (data : option (list session)) (error : bool)
| R_session (data : option session) (error : bool)
| R_messages (data : option (list chat_message)) (error : bool)
| R_write (error : bool)
| R_media (granted : bool)
| R_loaded (payload : string).

(** *** Statements *)

(** Insertion by a key, ascending; rows with equal keys keep the order of
    the table (the store leaves the order of ties open). *)
Fixpoint insert_by {A : Type} (key : A -> nat) (x : A) (l : list A) : list A :=
  match l with
  | [] => [x]
  | y :: l' => if key x <=? key y then x :: l else y :: insert_by key x l'
  end.

Fixpoint sort_by {A : Type} (key : A -> nat) (l : list A) : list A :=
  match l with
  | [] => []
  | x :: l' => insert_by key x (sort_by key l')
  end.

(** Two rows are in ascending order of a key. *)
Definition key_le {A : Type} (key : A -> nat) (a b : A) : Prop := key a <= key b.

(** Insertion by a key, descending; rows with equal keys keep the order of
    the table here too. *)
Fixpoint insert_by_desc {A : Type} (key : A -> nat) (x : A) (l : list A) : list A :=
  match l with
  | [] => [x]
  | y :: l' => if key y <=? key x then x :: l else y :: insert_by_desc key x l'
  end.

Fixpoint sort_by_desc {A : Type} (key : A -> nat) (l : list A) : list A :=
  match l with
  | [] => []
  | x :: l' => insert_by_desc key x (sort_by_desc key l')
  end.

(** [ORDER BY key ASC] or [DESC]. *)
Definition order_by {A : Type} (key : A -> nat) (ascending : bool) (l : list A) : list A :=
  if ascending then sort_by key l else sort_by_desc key l.

Definition select_chat_messages (sid : nat) (ascending : bool) (st : store)
  : list chat_message :=
  order_by created_at ascending
    (filter (fun m => session_id m =? sid) (chat_messages st)).

Definition select_sessions (ascending : bool) (st : store) : list session :=
  order_by s_updated_at ascending (sessions st).

Definition select_session (sid : nat) (st : store) : option session :=
  match filter (fun s => s_id s =? sid) (sessions st) with
  | [s] => Some s            (* .single(): exactly one row, else an error *)
  | _ => None
  end.

(** [id] and [created_at] take their column defaults; [image_url] is not
    part of the inserted object and stays [NULL]. *)
Definition insert_chat_message (row : new_chat_message) (st : store) : store :=
  {| sessions := sessions st;
     chat_messages := chat_messages st ++
       [ {| id := next_id st; session_id := n_session_id row;
            user_id := n_user_id row; content := n_content row;
            message_type := n_message_type row;
            ai_response := n_ai_response row; image_url := None;
            created_at := clock st |} ];
     clock := clock st;
     next_id := S (next_id st) |}.

Definition insert_session (row : new_session) (st : store) : store :=
  {| sessions := sessions st ++
       [ {| s_id := next_id st; s_user_id := n_owner row; s_name := n_name row;
            s_system_prompt := Some (n_system_prompt row);
            s_created_at := clock st; s_updated_at := clock st |} ];
     chat_messages := chat_messages st;
     clock := clock st;
     next_id := S (next_id st) |}.

(** The [update_sessions_updated_at] trigger sets [updated_at = now()] on
    every updated row, whatever value the client sent. *)
Definition touch_session (sid : nat) (st : store) : store :=
  {| sessions :=
       map (fun s => if s_id s =? sid
                     then {| s_id := s_id s; s_user_id := s_user_id s;
                             s_name := s_name s;
                             s_system_prompt := s_system_prompt s;
                             s_created_at := s_created_at s;
                             s_updated_at := clock st |}
                     else s) (sessions st);
     chat_messages := chat_messages st;
     clock := clock st;
     next_id := next_id st |}.

Definition tick (st : store) : store :=
  {| sessions := sessions st; chat_messages := chat_messages st;
     clock := S (clock st); next_id := next_id st |}.

(** The backend settles request [rq] with outcome [o]: the new store and
    the value the client receives.  A request and its reply are one
    atomic exchange.  [None]: the outcome does not fit the request. *)
Definition serve (rq : request) (o : outcome) (st : store) : option (store * reply) :=
  match rq, o with
  | AuthGetUser, O_user u => Some (st, R_user u)
  | InvokeGeminiChat _ _ _ _ _, O_invoke r => Some (st, R_invoke r)
  | InvokeTranscribe _, O_invoke r => Some (st, R_invoke r)
  | SelectSessions asc, O_store true => Some (st, R_sessions (Some (select_sessions asc st)) false)
  | SelectSessions _, O_store false => Some (st, R_sessions None true)
  | SelectSession sid, O_store true =>
      Some (st, match select_session sid st with
                | Some s => R_session (Some s) false
                | None => R_session None true
                end)
  | SelectSession _, O_store false => Some (st, R_session None true)
  | SelectChatMessages sid asc, O_store true =>
      Some (st, R_messages (Some (select_chat_messages sid asc st)) false)
  | SelectChatMessages _ _, O_store false => Some (st, R_messages None true)
  | InsertSession row, O_store true => Some (insert_session row st, R_write false)
  | InsertSession _, O_store false => Some (st, R_write true)
  | InsertChatMessage row, O_store true => Some (insert_chat_message row st, R_write false)
  | InsertChatMessage _, O_store false => Some (st, R_write true)
  | UpdateSessionTimestamp sid, O_store true => Some (touch_session sid st, R_write false)
  | UpdateSessionTimestamp _, O_store false => Some (st, R_write true)
  | GetUserMedia, O_media g => Some (st, R_media g)
  | RecorderStop, O_recorded audio => Some (st, R_loaded audio)
  | ReadAsDataURL p, O_loaded => Some (st, R_loaded p)
  | _, _ => None
  end.

End Backend.

(* ===================================================================== *)
(** ** A component instance: live state, store, parked continuations, trace *)
(* ===================================================================== *)

Module Runtime.
Import Backend.

(** What a component does that an observer can see, in order. *)
Inductive effect :=
| Call (rq : request)                                     (* a request is issued *)
| Toast (title description : string) (destructive : bool) (* toast({...}) *)
| ConsoleError (msg : string).                            (* console.error(msg, ...) *)

Section World.
Variables V K : Type.

(** [ui]: the values of the component's [useState] cells (live).
    [db]: the backend.  [tasks]: the requests in flight, each with the
    continuation that awaits it.  [trace]: the effects so far. *)
Record world := World {
  ui : V;
  db : store;
  tasks : list (request * K);
  trace : list effect
}.

Definition action := world -> world.

Definition skip : action := fun w => w.

Definition andThen (a b : action) : action := fun w => b (a w).

(** A [useState] setter. *)
Definition setState (f : V -> V) : action :=
  fun w => {| ui := f (ui w); db := db w; tasks := tasks w; trace := trace w |}.

Definition emit (e : effect) : action :=
  fun w => {| ui := ui w; db := db w; tasks := tasks w; trace := trace w ++ [e] |}.

Definition toast (title description : string) (destructive : bool) : action :=
  emit (Toast title description destructive).

(** [await rq] with the rest of the function as [k]: the request goes
    out and the continuation is parked. *)
Definition await (rq : request) (k : K) : action :=
  fun w => {| ui := ui w; db := db w; tasks := tasks w ++ [(rq, k)];
              trace := trace w ++ [Call rq] |}.

Fixpoint remove_nth {A : Type} (i : nat) (l : list A) : list A :=
  match l, i with
  | [], _ => []
  | _ :: l', 0 => l'
  | x :: l', S i' => x :: remove_nth i' l'
  end.

(** The environment settles the [i]-th request in flight with outcome
    [o]; the backend serves it and the parked continuation runs on the
    reply.  [None] when there is no such request or [o] does not fit. *)
Definition settle (resume : K -> reply -> option action)
           (i : nat) (o : outcome) (w : world) : option world :=
  match nth_error (tasks w) i with
  | None => None
  | Some (rq, k) =>
      match serve rq o (db w) with
      | None => None
      | Some (db', r) =>
          match resume k r with
          | None => None
          | Some a =>
              Some (a {| ui := ui w; db := db'; tasks := remove_nth i (tasks w);
                         trace := trace w |})
          end
      end
  end.

Definition server_tick : action :=
  fun w => {| ui := ui w; db := tick (db w); tasks := tasks w; trace := trace w |}.

(** Run a schedule of events from a world. *)
Fixpoint run {E : Type} (step : E -> world -> option world)
         (es : list E) (w : world) : option world :=
  match es with
  | [] => Some w
  | e :: es' =>
      match step e w with
      | None => None
      | Some w' => run step es' w'
      end
  end.

(** The requests issued so far. *)
Definition calls (w : world) : list request :=
  flat_map (fun e => match e with Call rq => [rq] | _ => [] end) (trace w).

(** The toasts shown so far. *)
Definition toasts (w : world) : list effect :=
  filter (fun e => match e with Toast _ _ _ => true | _ => false end) (trace w).

Definition destructive_toasts (w : world) : list effect :=
  filter (fun e => match e with Toast _ _ true => true | _ => false end) (trace w).

End World.

Arguments World {V K}.
Arguments ui {V K}.
Arguments db {V K}.
Arguments tasks {V K}.
Arguments trace {V K}.
Arguments skip {V K}.
Arguments andThen {V K}.
Arguments setState {V K}.
Arguments emit {V K}.
Arguments toast {V K}.
Arguments await {V K}.
Arguments remove_nth {A}.
Arguments settle {V K}.
Arguments server_tick {V K}.
Arguments run {V K E}.
Arguments calls {V K}.
Arguments toasts {V K}.
Arguments destructive_toasts {V K}.

Declare Scope action_scope.
Delimit Scope action_scope with action.
Notation "a ;; b" := (andThen a b) (at level 61, right associativity) : action_scope.

End Runtime.

(* ===================================================================== *)
(** ** The chat view (component [ChatInterface]) *)
(* ===================================================================== *)

Module ChatInterface.
Import Js Backend Runtime.
Local Open Scope action_scope.

(** The [useState] cells of one render.  [systemPrompt] is typed [string]
    but receives the nullable column [system_prompt]. *)
Record render := Render {
  messages : list chat_message;
  currentMessage : string;
  loading : bool;
  sessionName : string;
  systemPrompt : option string;
  isRecording : bool
}.

(** The live component: the current cells, and [mediaRecorderRef], which
    holds the recorder together with the render its [onstop] closed over. *)
Record view := View {
  cells : render;
  mediaRecorderRef : option render
}.

(** An entry of [clipboardData.items]. *)
Record clipboard_item := ClipboardItem {
  item_type : string;
  getAsFile : option string      (* the base64 payload of the file, or null *)
}.

(** The continuations of the component's [await]s and callbacks. *)
Inductive cont :=
| K_fetchSession
| K_fetchMessages
| K_send_getUser (r : render) (content : string) (messageType : message_type_t)
                 (imageData : option string)
| K_send_invoke (user : string) (content : string) (messageType : message_type_t)
| K_send_insert
| K_send_update
| K_image_onload (r : render)
| K_getUserMedia (r : render)
| K_recorder_onstop (r : render)
| K_transcribe (r : render).

Definition world := Runtime.world view cont.
Definition action := Runtime.action view cont.

Definition on_cells (f : render -> render) : action :=
  setState (fun v => {| cells := f (cells v); mediaRecorderRef := mediaRecorderRef v |}).

Definition setMessages (l : list chat_message) : action :=
  on_cells (fun r => {| messages := l; currentMessage := currentMessage r;
                        loading := loading r; sessionName := sessionName r;
                        systemPrompt := systemPrompt r; isRecording := isRecording r |}).

Definition setCurrentMessage (s : string) : action :=
  on_cells (fun r => {| messages := messages r; currentMessage := s;
                        loading := loading r; sessionName := sessionName r;
                        systemPrompt := systemPrompt r; isRecording := isRecording r |}).

Definition setLoading (b : bool) : action :=
  on_cells (fun r => {| messages := messages r; currentMessage := currentMessage r;
                        loading := b; sessionName := sessionName r;
                        systemPrompt := systemPrompt r; isRecording := isRecording r |}).

Definition setSessionName (s : string) : action :=
  on_cells (fun r => {| messages := messages r; currentMessage := currentMessage r;
                        loading := loading r; sessionName := s;
                        systemPrompt := systemPrompt r; isRecording := isRecording r |}).

Definition setSystemPrompt (s : option string) : action :=
  on_cells (fun r => {| messages := messages r; currentMessage := currentMessage r;
                        loading := loading r; sessionName := sessionName r;
                        systemPrompt := s; isRecording := isRecording r |}).

Definition setIsRecording (b : bool) : action :=
  on_cells (fun r => {| messages := messages r; currentMessage := currentMessage r;
                        loading := loading r; sessionName := sessionName r;
                        systemPrompt := systemPrompt r; isRecording := b |}).

Definition setMediaRecorderRef (o : option render) : action :=
  setState (fun v => {| cells := cells v; mediaRecorderRef := o |}).

Definition initial_cells : render :=
  {| messages := []; currentMessage := ""; loading := false; sessionName := "";
     systemPrompt := Some ""; isRecording := false |}.

Definition initial (st : store) : world :=
  {| ui := {| cells := initial_cells; mediaRecorderRef := None |};
     db := st; tasks := []; trace := [] |}.

Section Instance.
(** [props.sessionId] *)
Variable sessionId : nat.

Definition fetchSession : action :=
  await (SelectSession sessionId) K_fetchSession.

Definition fetchMessages : action :=
  await (SelectChatMessages sessionId true) K_fetchMessages.

(** The guard of [sendMessage]:
    [(!content.trim() && !imageData) || loading], with [loading] the
    cell of the render [r] the function belongs to. *)
Definition send_blocked (r : render) (content : string) (imageData : option string) : bool :=
  (negb (truthy (trim content)) && negb (truthy_opt imageData)) || loading r.

Definition sendMessage (r : render) (content : string) (messageType : message_type_t)
           (imageData : option string) : action :=
  if send_blocked r content imageData then skip
  else setLoading true ;;
       await AuthGetUser (K_send_getUser r content messageType imageData).

(** The [catch] and [finally] blocks of [sendMessage]. *)
Definition sendMessage_catch : action :=
  emit (ConsoleError "Error sending message:") ;;
  toast "Error" "Failed to send message" true ;;
  setLoading false.

Definition fetchSession_catch : action :=
  emit (ConsoleError "Error fetching session:").

Definition fetchMessages_catch : action :=
  emit (ConsoleError "Error fetching messages:").

Definition transcribe_catch : action :=
  emit (ConsoleError "Error transcribing audio:") ;;
  toast "Error" "Failed to transcribe audio" true.

Definition handleImageUpload (r : render) (file : option string) : action :=
  match file with
  | None => skip
  | Some payload => await (ReadAsDataURL payload) (K_image_onload r)
  end.

Fixpoint handlePasteImage (r : render) (items : list clipboard_item) : action :=
  match items with
  | [] => skip
  | item :: items' =>
      (if String.prefix "image/" (item_type item)
       then match getAsFile item with
            | Some payload => await (ReadAsDataURL payload) (K_image_onload r)
            | None => skip
            end
       else skip) ;;
      handlePasteImage r items'
  end.

Definition handleVoiceRecording (r : render) : action :=
  fun w =>
    if isRecording r then
      match mediaRecorderRef (ui w) with
      | Some r0 => (await RecorderStop (K_recorder_onstop r0) ;; setIsRecording false) w
      | None => w
      end
    else await GetUserMedia (K_getUserMedia r) w.

(** The rest of each function after its [await]. *)
Definition resume (k : cont) (rp : reply) : option action :=
  match k, rp with
  | K_fetchSession, R_session data error =>
      Some (if error then fetchSession_catch
            else match data with
                 | None => fetchSession_catch       (* reading [data.name] of null *)
                 | Some s => setSessionName (s_name s) ;;
                             setSystemPrompt (s_system_prompt s)
                 end)
  | K_fetchMessages, R_messages data error =>
      Some (if error then fetchMessages_catch else setMessages (or_nil data))
  | K_send_getUser r content messageType imageData, R_user user =>
      Some (match user with
            | None => sendMessage_catch              (* throw new Error('Not authenticated') *)
            | Some uid =>
                await (InvokeGeminiChat content sessionId messageType imageData
                                        (systemPrompt r))
                      (K_send_invoke uid content messageType)
            end)
  | K_send_invoke uid content messageType, R_invoke res =>
      Some (match res with
            | InvokeError => sendMessage_catch       (* if (aiError) throw aiError *)
            | InvokeData None => sendMessage_catch   (* reading [aiData.response] of null *)
            | InvokeData (Some response) =>
                await (InsertChatMessage
                         {| n_session_id := sessionId; n_user_id := uid;
                            n_content := or_else content "Image uploaded";
                            n_message_type := messageType;
                            n_ai_response := response |})
                      K_send_insert
            end)
  | K_send_insert, R_write error =>
      Some (if error then sendMessage_catch
            else await (UpdateSessionTimestamp sessionId) K_send_update)
  | K_send_update, R_write _ =>
      Some (setCurrentMessage "" ;;
            fetchMessages ;;
            toast "Message sent" "AI response generated successfully" false ;;
            setLoading false)
  | K_image_onload r, R_loaded payload =>
      Some (sendMessage r "" image (Some payload))
  | K_getUserMedia r, R_media granted =>
      Some (if granted
            then setMediaRecorderRef (Some r) ;;
                 setIsRecording true ;;
                 toast "Recording started" "Speak now, tap again to stop" false
            else emit (ConsoleError "Error starting recording:") ;;
                 toast "Error" "Microphone access denied" true)
  | K_recorder_onstop r, R_loaded audio =>
      Some (await (InvokeTranscribe audio) (K_transcribe r))
  | K_transcribe r, R_invoke res =>
      Some (match res with
            | InvokeData (Some (Some txt)) => sendMessage r txt voice None
            | _ => transcribe_catch
            end)
  | _, _ => None
  end.

(** What can happen to a mounted view.  The handlers the page offers
    belong to the current render; the controls carry
    [disabled={loading}] (the Send button also requires a non-blank
    input), so their events exist only while the live flag is clear. *)
Inductive event :=
| E_mount                                    (* useEffect(..., [sessionId]) *)
| E_change (value : string)                  (* Input onChange *)
| E_enter                                    (* Input onKeyPress, key Enter *)
| E_send_click                               (* Send button *)
| E_paste (items : list clipboard_item)      (* Input onPaste *)
| E_file (file : option string)              (* hidden file input onChange *)
| E_mic_click                                (* microphone button *)
| E_settle (i : nat) (o : outcome)           (* a pending request settles *)
| E_tick.                                    (* server time passes *)

Definition step (e : event) (w : world) : option world :=
  let r := cells (ui w) in
  match e with
  | E_mount => Some ((fetchSession ;; fetchMessages) w)
  | E_change v => if loading r then None else Some (setCurrentMessage v w)
  | E_enter =>
      if loading r then None
      else Some (sendMessage r (currentMessage r) text None w)
  | E_send_click =>
      if loading r || negb (truthy (trim (currentMessage r))) then None
      else Some (sendMessage r (currentMessage r) text None w)
  | E_paste items => if loading r then None else Some (handlePasteImage r items w)
  | E_file file => Some (handleImageUpload r file w)
  | E_mic_click => if loading r then None else Some (handleVoiceRecording r w)
  | E_settle i o => settle resume i o w
  | E_tick => Some (server_tick w)
  end.

(** A send is in flight from the moment it passed the guard until its
    [finally] block has run: it is parked on one of its four awaits. *)
Definition is_send (t : request * cont) : bool :=
  match snd t with
  | K_send_getUser _ _ _ _ | K_send_invoke _ _ _ | K_send_insert | K_send_update => true
  | _ => false
  end.

Definition sends_in_flight (w : world) : nat :=
  length (filter is_send (tasks w)).

(** The events whose handler belongs to the current render and calls
    [sendMessage] itself, if at all: everything but the paste, file and
    microphone events, whose [sendMessage] call happens later, inside a
    callback created by the handler. *)
Definition direct (e : event) : bool :=
  match e with
  | E_paste _ | E_file _ | E_mic_click => false
  | _ => true
  end.

(** The parked callbacks that will call [sendMessage] from an older render. *)
Definition is_callback (t : request * cont) : bool :=
  match snd t with
  | K_image_onload _ | K_getUserMedia _ | K_recorder_onstop _ | K_transcribe _ => true
  | _ => false
  end.

(** At most one send is in flight, the busy flag is set while it is, and
    no callback is parked. *)
Definition serialized (w : world) : Prop :=
  sends_in_flight w <= 1 /\
  (loading (cells (ui w)) = false -> sends_in_flight w = 0) /\
  forallb (fun t => negb (is_callback t)) (tasks w) = true.

End Instance.

End ChatInterface.

(* ===================================================================== *)
(** ** The session directory (component [SessionDashboard]) *)
(* ===================================================================== *)

Module SessionDashboard.
Import Js Backend Runtime.
Local Open Scope action_scope.

(** The boilerplate instruction text the prompt field starts with. *)
Definition default_prompt : string :=
  "You are a helpful study assistant. Analyze the content provided and give clear, educational explanations.".

(** The [useState] cells of one render. *)
Record render := Render {
  sessions : list session;
  loading : bool;
  sessionName : string;
  systemPrompt : string;
  createDialogOpen : bool;
  creating : bool
}.

Inductive cont :=
| K_fetchSessions
| K_create_getUser (r : render)
| K_create_insert (r : render).

Definition world := Runtime.world render cont.
Definition action := Runtime.action render cont.

Definition setSessions (l : list session) : action :=
  setState (fun r => {| sessions := l; loading := loading r;
                        sessionName := sessionName r; systemPrompt := systemPrompt r;
                        createDialogOpen := createDialogOpen r; creating := creating r |}).

Definition setLoading (b : bool) : action :=
  setState (fun r => {| sessions := sessions r; loading := b;
                        sessionName := sessionName r; systemPrompt := systemPrompt r;
                        createDialogOpen := createDialogOpen r; creating := creating r |}).

Definition setSessionName (s : string) : action :=
  setState (fun r => {| sessions := sessions r; loading := loading r;
                        sessionName := s; systemPrompt := systemPrompt r;
                        createDialogOpen := createDialogOpen r; creating := creating r |}).

Definition setSystemPrompt (s : string) : action :=
  setState (fun r => {| sessions := sessions r; loading := loading r;
                        sessionName := sessionName r; systemPrompt := s;
                        createDialogOpen := createDialogOpen r; creating := creating r |}).

Definition setCreateDialogOpen (b : bool) : action :=
  setState (fun r => {| sessions := sessions r; loading := loading r;
                        sessionName := sessionName r; systemPrompt := systemPrompt r;
                        createDialogOpen := b; creating := creating r |}).

Definition setCreating (b : bool) : action :=
  setState (fun r => {| sessions := sessions r; loading := loading r;
                        sessionName := sessionName r; systemPrompt := systemPrompt r;
                        createDialogOpen := createDialogOpen r; creating := b |}).

Definition initial_cells : render :=
  {| sessions := []; loading := true; sessionName := "";
     systemPrompt := default_prompt; createDialogOpen := false; creating := false |}.

Definition initial (st : store) : world :=
  {| ui := initial_cells; db := st; tasks := []; trace := [] |}.

Definition fetchSessions : action :=
  await (SelectSessions false) K_fetchSessions.

(** The [catch] and [finally] blocks of [fetchSessions]. *)
Definition fetchSessions_catch : action :=
  emit (ConsoleError "Error fetching sessions:") ;;
  toast "Error" "Failed to load sessions" true ;;
  setLoading false.

(** The [catch] and [finally] blocks of [createSession]. *)
Definition createSession_catch : action :=
  emit (ConsoleError "Error creating session:") ;;
  toast "Error" "Failed to create session" true ;;
  setCreating false.

Definition createSession (r : render) : action :=
  if negb (truthy (trim (sessionName r)))
  then toast "Session name required" "Please enter a name for your study session" true
  else setCreating true ;;
       await AuthGetUser (K_create_getUser r).

Definition resume (k : cont) (rp : reply) : option action :=
  match k, rp with
  | K_fetchSessions, R_sessions data error =>
      Some (if error then fetchSessions_catch
            else setSessions (or_nil data) ;; setLoading false)
  | K_create_getUser r, R_user user =>
      Some (match user with
            | None => createSession_catch           (* throw new Error('Not authenticated') *)
            | Some uid =>
                await (InsertSession {| n_name := sessionName r;
                                        n_system_prompt := systemPrompt r;
                                        n_owner := uid |})
                      (K_create_insert r)
            end)
  | K_create_insert r, R_write error =>
      Some (if error then createSession_catch
            else toast "Session created" (sessionName r ++ " is ready for studying")%string false ;;
                 setSessionName "" ;;
                 setSystemPrompt default_prompt ;;
                 setCreateDialogOpen false ;;
                 fetchSessions ;;
                 setCreating false)
  | _, _ => None
  end.

(** What can happen to a mounted dashboard.  While [loading] only the
    spinner is rendered; the name field, the prompt field and the Create
    button live in the dialog, and the button carries
    [disabled={creating}]. *)
Inductive event :=
| E_mount                              (* useEffect(..., []) *)
| E_dialog (open : bool)               (* Dialog onOpenChange *)
| E_name (value : string)              (* name Input onChange *)
| E_prompt (value : string)            (* prompt Textarea onChange *)
| E_create_click                       (* Create Session button *)
| E_settle (i : nat) (o : outcome)
| E_tick.

Definition step (e : event) (w : world) : option world :=
  let r := ui w in
  match e with
  | E_mount => Some (fetchSessions w)
  | E_dialog b => if loading r then None else Some (setCreateDialogOpen b w)
  | E_name v =>
      if loading r || negb (createDialogOpen r) then None else Some (setSessionName v w)
  | E_prompt v =>
      if loading r || negb (createDialogOpen r) then None else Some (setSystemPrompt v w)
  | E_create_click =>
      if loading r || negb (createDialogOpen r) || creating r then None
      else Some (createSession r w)
  | E_settle i o => settle resume i o w
  | E_tick => Some (server_tick w)
  end.

End SessionDashboard.

(* ===================================================================== *)
(** ** Concrete stores and inputs used in the examples *)
(* ===================================================================== *)

Module Sample.
Import Backend.

(** One session, "Algebra Review", owned by user [u1]; no messages yet. *)
Definition store1 : store :=
  {| sessions := [ {| s_id := 7; s_user_id := "u1"; s_name := "Algebra Review";
                      s_system_prompt := Some SessionDashboard.default_prompt;
                      s_created_at := 0; s_updated_at := 0 |} ];
     chat_messages := [];
     clock := 3;
     next_id := 8 |}.

(** The same session with two stored turns, the later one first in the table. *)
Definition store2 : store :=
  {| sessions := sessions store1;
     chat_messages :=
       [ {| id := 9; session_id := 7; user_id := "u1"; content := "and of x^3?";
            message_type := text; ai_response := Some "3x^2"; image_url := None;
            created_at := 2 |};
         {| id := 8; session_id := 7; user_id := "u1";
            content := "What is the derivative of x^2?";
            message_type := text; ai_response := Some "2x"; image_url := None;
            created_at := 1 |};
         {| id := 5; session_id := 4; user_id := "u1"; content := "hello";
            message_type := voice; ai_response := None; image_url := None;
            created_at := 0 |} ];
     clock := 3;
     next_id := 10 |}.

Definition empty_store : store :=
  {| sessions := []; chat_messages := []; clock := 0; next_id := 0 |}.

Definition png (payload : string) : ChatInterface.clipboard_item :=
  {| ChatInterface.item_type := "image/png"; ChatInterface.getAsFile := Some payload |}.

(** A render of the chat view in which the user has typed [s]. *)
Definition typed (s : string) : ChatInterface.render :=
  {| ChatInterface.messages := []; ChatInterface.currentMessage := s;
     ChatInterface.loading := false; ChatInterface.sessionName := "Algebra Review";
     ChatInterface.systemPrompt := Some SessionDashboard.default_prompt;
     ChatInterface.isRecording := false |}.

(** A render of the dashboard's dialog with the two fields filled in. *)
Definition dialog (name prompt : string) : SessionDashboard.render :=
  {| SessionDashboard.sessions := []; SessionDashboard.loading := false;
     SessionDashboard.sessionName := name; SessionDashboard.systemPrompt := prompt;
     SessionDashboard.createDialogOpen := true; SessionDashboard.creating := false |}.

(** Two images pasted at once, and the first image read. *)
Definition paste_two_first_read : list ChatInterface.event :=
  [ ChatInterface.E_paste [png "AAAA"; png "BBBB"];
    ChatInterface.E_settle 0 O_loaded ].

(** ... then the second image read ... *)
Definition paste_two_both_read : list ChatInterface.event :=
  paste_two_first_read ++ [ ChatInterface.E_settle 0 O_loaded ].

(** ... then both sends told who the user is. *)
Definition paste_two_both_asking : list ChatInterface.event :=
  paste_two_both_read ++
  [ ChatInterface.E_settle 0 (O_user (Some "u1"));
    ChatInterface.E_settle 0 (O_user (Some "u1")) ].

(** The world the second image's [onload] runs in: the first image's
    send is in flight and has raised the busy flag. *)
Definition first_send_in_flight : ChatInterface.world :=
  {| Runtime.ui :=
       {| ChatInterface.cells :=
            {| ChatInterface.messages := []; ChatInterface.currentMessage := "";
               ChatInterface.loading := true; ChatInterface.sessionName := "";
               ChatInterface.systemPrompt := Some "";
               ChatInterface.isRecording := false |};
          ChatInterface.mediaRecorderRef := None |};
     Runtime.db := store1;
     Runtime.tasks :=
       [ (AuthGetUser,
          ChatInterface.K_send_getUser ChatInterface.initial_cells "" image
                                       (Some "AAAA")) ];
     Runtime.trace :=
       [ Runtime.Call (ReadAsDataURL "AAAA"); Runtime.Call (ReadAsDataURL "BBBB");
         Runtime.Call AuthGetUser ] |}.

(** A recording is started and stopped; while its transcription is on
    its way the user types a question and presses Enter; then the
    transcription arrives. *)
Definition speak_then_type : list ChatInterface.event :=
  [ ChatInterface.E_mic_click; ChatInterface.E_settle 0 (O_media true);
    ChatInterface.E_mic_click; ChatInterface.E_settle 0 (O_recorded "T2dn");
    ChatInterface.E_change "What is a cell?"; ChatInterface.E_enter;
    ChatInterface.E_settle 0
      (O_invoke (InvokeData (Some (Some "explain photosynthesis")))) ].

(** A dashboard whose list has loaded, then: open the dialog, type a
    name, clear the prompt field, press Create; the user is signed in and
    the insert succeeds. *)
Definition create_with_cleared_prompt : list SessionDashboard.event :=
  [ SessionDashboard.E_mount; SessionDashboard.E_settle 0 (O_store true);
    SessionDashboard.E_dialog true; SessionDashboard.E_name "Algebra Review";
    SessionDashboard.E_prompt ""; SessionDashboard.E_create_click;
    SessionDashboard.E_settle 0 (O_user (Some "u1"));
    SessionDashboard.E_settle 0 (O_store true) ].

End Sample.

(* ===================================================================== *)
(** ** The page (component [Index]): authentication gate and navigation *)
(* ===================================================================== *)

Module Index.

(** The authentication session the identity provider hands out; its [user]
    is never null. *)
Record auth_session := AuthSession {
  access_token : string;
  session_user : string          (* session.user, by its id *)
}.

(** The [useState] cells of the page.  A selected session identifier is a
    row identifier and as such truthy. *)
Record state := State {
  user : option string;
  session : option auth_session;
  loading : bool;
  currentSessionId : option nat
}.

Definition initial : state :=
  {| user := None; session := None; loading := true; currentSessionId := None |}.

(** What the page renders. *)
Inductive page :=
| Spinner
| AuthPage
| Chat (sessionId : nat)
| Dashboard.

Definition render (st : state) : page :=
  if loading st then Spinner
  else match user st, session st with
       | Some _, Some _ =>
           match currentSessionId st with
           | Some sid => Chat sid
           | None => Dashboard
           end
       | _, _ => AuthPage
       end.

(** The body shared by the [onAuthStateChange] listener and the
    continuation of [getSession()]. *)
Definition onAuth (s : option auth_session) (st : state) : state :=
  {| user := match s with Some a => Some (session_user a) | None => None end;
     session := s;
     loading := false;
     currentSessionId := currentSessionId st |}.

(** [onSessionSelect], [onBack] and [onSignOut] as passed to the children. *)
Definition onSessionSelect (sid : nat) (st : state) : state :=
  {| user := user st; session := session st; loading := loading st;
     currentSessionId := Some sid |}.

Definition onBack (st : state) : state :=
  {| user := user st; session := session st; loading := loading st;
     currentSessionId := None |}.

Definition onSignOut (st : state) : state :=
  {| user := None; session := None; loading := loading st;
     currentSessionId := None |}.

(** The page together with the calls of [supabase.auth.signOut()] that the
    dashboard's [handleSignOut] has made and that have not settled yet:
    [try { await supabase.auth.signOut(); onSignOut(); } catch { ... }]. *)
Record world := World {
  cells : state;
  signing_out : nat
}.

Definition start : world := {| cells := initial; signing_out := 0 |}.

(** What can happen to the page.  A click needs its control on screen.
    The rest of [handleSignOut] runs when [signOut()] settles, whatever is
    on screen by then: [onSignOut()] when it resolved, with or without an
    error in its result, and only [console.error] when it threw. *)
Inductive event :=
| E_auth (s : option auth_session)    (* listener fires, or getSession() resolves *)
| E_select (sid : nat)                (* a session card is clicked *)
| E_back                              (* the chat view's back button *)
| E_sign_out_click                    (* the dashboard's Sign Out button *)
| E_sign_out_settled (thrown : bool). (* a signOut() in flight settles *)

Definition step (e : event) (w : world) : option world :=
  match e with
  | E_auth s => Some {| cells := onAuth s (cells w); signing_out := signing_out w |}
  | E_select sid =>
      match render (cells w) with
      | Dashboard => Some {| cells := onSessionSelect sid (cells w);
                             signing_out := signing_out w |}
      | _ => None
      end
  | E_back =>
      match render (cells w) with
      | Chat _ => Some {| cells := onBack (cells w); signing_out := signing_out w |}
      | _ => None
      end
  | E_sign_out_click =>
      match render (cells w) with
      | Dashboard => Some {| cells := cells w; signing_out := S (signing_out w) |}
      | _ => None
      end
  | E_sign_out_settled thrown =>
      match signing_out w with
      | 0 => None
      | S k => Some {| cells := if thrown then cells w else onSignOut (cells w);
                       signing_out := k |}
      end
  end.

Fixpoint run (es : list event) (w : world) : option world :=
  match es with
  | [] => Some w
  | e :: es' =>
      match step e w with
      | None => None
      | Some w' => run es' w'
      end
  end.

Definition is_auth (e : event) : bool :=
  match e with E_auth _ => true | _ => false end.

End Index.

(* ===================================================================== *)
(** ** Vocabulary for whole operations *)
(* ===================================================================== *)

Module Scenario.
Import Js Backend Runtime.

(** *** The store *)

(** No row is stamped later than the server clock, and no session was
    updated before it was created. *)
Definition timestamps_ok (st : store) : Prop :=
  Forall (fun s => s_created_at s <= s_updated_at s /\ s_updated_at s <= clock st)
         (sessions st) /\
  Forall (fun m => created_at m <= clock st) (chat_messages st).

(** Two rows are in descending order of a key. *)
Definition key_ge {A : Type} (key : A -> nat) (a b : A) : Prop := key b <= key a.

(** *** One send of the chat view *)

(** A send stores its turn exactly when a user is signed in, the AI
    endpoint delivers a body and the insert goes through. *)
Definition send_succeeds (user : option string) (res : invoke_result) (insert_ok : bool)
  : bool :=
  match user, res with
  | Some _, InvokeData (Some _) => insert_ok
  | _, _ => false
  end.

(** The settlements that carry a send parked at position [n] to its end,
    for the given outcomes of its four requests. *)
Definition send_events (n : nat) (user : option string) (res : invoke_result)
           (insert_ok update_ok : bool) : list ChatInterface.event :=
  ChatInterface.E_settle n (O_user user) ::
  match user with
  | None => []
  | Some _ =>
      ChatInterface.E_settle n (O_invoke res) ::
      match res with
      | InvokeData (Some _) =>
          ChatInterface.E_settle n (O_store insert_ok) ::
          (if insert_ok then [ChatInterface.E_settle n (O_store update_ok)] else [])
      | _ => []
      end
  end.

(** The toast a send ends with. *)
Definition send_toast (ok : bool) : effect :=
  if ok then Toast "Message sent" "AI response generated successfully" false
  else Toast "Error" "Failed to send message" true.

(** *** Clipboard *)

(** The payloads of the clipboard items that are images and carry a file,
    in clipboard order. *)
Definition image_files (items : list ChatInterface.clipboard_item) : list string :=
  flat_map (fun item =>
              if String.prefix "image/" (ChatInterface.item_type item)
              then match ChatInterface.getAsFile item with
                   | Some payload => [payload]
                   | None => []
                   end
              else [])
           items.

(** *** Invariants of the chat view *)

(** Every reload in flight asks for this session's rows, ascending. *)
Definition reload_ok (sessionId : nat) (t : request * ChatInterface.cont) : bool :=
  match snd t with
  | ChatInterface.K_fetchMessages =>
      match fst t with
      | SelectChatMessages sid true => sid =? sessionId
      | _ => false
      end
  | _ => true
  end.

(** The transcript on screen is in ascending order of creation and holds
    rows of this session only. *)
Definition transcript_ok (sessionId : nat) (w : ChatInterface.world) : Prop :=
  forallb (reload_ok sessionId) (tasks w) = true /\
  StronglySorted (key_le created_at)
                 (ChatInterface.messages (ChatInterface.cells (ui w))) /\
  Forall (fun m => session_id m = sessionId)
         (ChatInterface.messages (ChatInterface.cells (ui w))).

(** A voice callback in flight belongs to a render whose busy flag is clear. *)
Definition voice_idle (t : request * ChatInterface.cont) : bool :=
  match snd t with
  | ChatInterface.K_getUserMedia r
  | ChatInterface.K_recorder_onstop r
  | ChatInterface.K_transcribe r => negb (ChatInterface.loading r)
  | _ => true
  end.

(** The recorder, once created, belongs to a render whose busy flag is
    clear; the recording flag is only set while a recorder exists. *)
Definition voice_ok (w : ChatInterface.world) : Prop :=
  forallb voice_idle (tasks w) = true /\
  match ChatInterface.mediaRecorderRef (ui w) with
  | Some r => ChatInterface.loading r = false
  | None => ChatInterface.isRecording (ChatInterface.cells (ui w)) = false
  end.

(** *** Invariants of the dashboard *)

Definition is_create (t : request * SessionDashboard.cont) : bool :=
  match snd t with
  | SessionDashboard.K_create_getUser _ | SessionDashboard.K_create_insert _ => true
  | SessionDashboard.K_fetchSessions => false
  end.

Definition creates_in_flight (w : SessionDashboard.world) : nat :=
  length (filter is_create (tasks w)).

(** At most one creation is in flight, and [creating] is set while it is. *)
Definition create_serialized (w : SessionDashboard.world) : Prop :=
  creates_in_flight w <= 1 /\
  (SessionDashboard.creating (ui w) = false -> creates_in_flight w = 0).

(** The settlements that carry a creation parked at position [n] to its
    end, for the given outcomes of its two requests. *)
Definition create_events (n : nat) (user : option string) (insert_ok : bool)
  : list SessionDashboard.event :=
  SessionDashboard.E_settle n (O_user user) ::
  match user with
  | None => []
  | Some _ => [SessionDashboard.E_settle n (O_store insert_ok)]
  end.

(** *** Sample situations *)

(** The sample session's view while a recording is on: the microphone was
    clicked and access was granted. *)
Definition recording_view : ChatInterface.world :=
  match run (ChatInterface.step 7)
            [ChatInterface.E_mic_click; ChatInterface.E_settle 0 (O_media true)]
            (ChatInterface.initial Sample.store1) with
  | Some w => w
  | None => ChatInterface.initial Sample.store1
  end.

(** The recording is stopped and its audio is on its way to the
    transcription endpoint. *)
Definition transcribing : list ChatInterface.event :=
  [ ChatInterface.E_mic_click; ChatInterface.E_settle 0 (O_media true);
    ChatInterface.E_mic_click; ChatInterface.E_settle 0 (O_recorded "T2dn") ].

(** The view is mounted on the sample session with two stored turns, the
    user asks a third question, it is answered and stored, and every reload
    succeeds. *)
Definition ask_third_question : list ChatInterface.event :=
  [ ChatInterface.E_mount; ChatInterface.E_settle 0 (O_store true);
    ChatInterface.E_settle 0 (O_store true);
    ChatInterface.E_change "and of x^4?"; ChatInterface.E_enter;
    ChatInterface.E_settle 0 (O_user (Some "u1"));
    ChatInterface.E_settle 0 (O_invoke (InvokeData (Some (Some "4x^3"))));
    ChatInterface.E_tick;
    ChatInterface.E_settle 0 (O_store true);
    ChatInterface.E_settle 0 (O_store true);
    ChatInterface.E_settle 0 (O_store true) ].

(** A dashboard is mounted, the dialog is opened, a name is typed and
    Create is pressed; the creation is waiting for the user. *)
Definition creating_botany : list SessionDashboard.event :=
  [ SessionDashboard.E_mount; SessionDashboard.E_settle 0 (O_store true);
    SessionDashboard.E_dialog true; SessionDashboard.E_name "Botany";
    SessionDashboard.E_create_click ].

(** The worlds the sample schedules end in. *)
Definition third_question_view : ChatInterface.world :=
  Eval vm_compute in
  match run (ChatInterface.step 7) ask_third_question
            (ChatInterface.initial Sample.store2) with
  | Some w => w
  | None => ChatInterface.initial Sample.store2
  end.

Definition third_question_asked : ChatInterface.world :=
  Eval vm_compute in
  match run (ChatInterface.step 7) (firstn 6 ask_third_question)
            (ChatInterface.initial Sample.store2) with
  | Some w => w
  | None => ChatInterface.initial Sample.store2
  end.

Definition transcribing_view : ChatInterface.world :=
  Eval vm_compute in
  match run (ChatInterface.step 7) transcribing (ChatInterface.initial Sample.store1) with
  | Some w => w
  | None => ChatInterface.initial Sample.store1
  end.

Definition botany_pending : SessionDashboard.world :=
  Eval vm_compute in
  match run SessionDashboard.step creating_botany
            (SessionDashboard.initial Sample.store1) with
  | Some w => w
  | None => SessionDashboard.initial Sample.store1
  end.

Definition alice : Index.auth_session :=
  {| Index.access_token := "t1"; Index.session_user := "u1" |}.

Definition bob : Index.auth_session :=
  {| Index.access_token := "t2"; Index.session_user := "u2" |}.

(** Alice signs in and opens session 7. *)
Definition alice_in_chat : Index.world :=
  {| Index.cells :=
       {| Index.user := Some "u1"; Index.session := Some alice;
          Index.loading := false; Index.currentSessionId := Some 7 |};
     Index.signing_out := 0 |}.

(** Alice signs in, presses Sign Out and, before [signOut()] has settled,
    opens session 7. *)
Definition alice_leaving : list Index.event :=
  [ Index.E_auth (Some alice); Index.E_sign_out_click; Index.E_select 7 ].

Definition alice_left_in_chat : Index.world :=
  {| Index.cells :=
       {| Index.user := Some "u1"; Index.session := Some alice;
          Index.loading := false; Index.currentSessionId := Some 7 |};
     Index.signing_out := 1 |}.

(** The [user] cell is the user of the [session] cell, and while a
    [signOut()] is in flight the spinner is gone. *)
Definition page_ok (w : Index.world) : Prop :=
  Index.user (Index.cells w)
  = match Index.session (Index.cells w) with
    | Some a => Some (Index.session_user a)
    | None => None
    end /\
  (Index.signing_out w <> 0 -> Index.loading (Index.cells w) = false).

(** *** The sends of the chat view *)

(** What the view passes to [sendMessage] and the guard lets through: a
    content that is not blank, or an image; and an image comes without any
    content. *)
Definition send_input_ok (content : string) (imageData : option string) : bool :=
  negb (negb (truthy (trim content)) && negb (truthy_opt imageData)) &&
  (negb (truthy_opt imageData) || negb (truthy content)).

Definition own_send (t : request * ChatInterface.cont) : bool :=
  match snd t with
  | ChatInterface.K_send_getUser _ content _ imageData => send_input_ok content imageData
  | _ => true
  end.

(** The content of the row a send stores, as the view's contract has it. *)
Definition stored_content (content : string) (imageData : option string) : string :=
  if negb (truthy (trim content)) && truthy_opt imageData
  then "Image uploaded" else content.

(** An image was uploaded and read; its send waits for the user. *)
Definition image_send_pending : ChatInterface.world :=
  Eval vm_compute in
  match run (ChatInterface.step 7)
            [ChatInterface.E_file (Some "QUJD"); ChatInterface.E_settle 0 O_loaded]
            (ChatInterface.initial Sample.store1) with
  | Some w => w
  | None => ChatInterface.initial Sample.store1
  end.

End Scenario.

(* ===================================================================== *)
(** ** Facts about the JavaScript helpers *)
(* ===================================================================== *)

Section JsFacts.
Import Js.

Lemma all_white_space_trimStart (s : string) :
  all_white_space (trimStart s) = all_white_space s.
Proof.
  induction s as [|c s IH]; simpl; [reflexivity|].
  destruct (is_white_space c) eqn:Hc; simpl; [exact IH | now rewrite Hc].
Qed.

Lemma trimEnd_empty (s : string) :
  trimEnd s = "" <-> all_white_space s = true.
Proof.
  induction s as [|c s IH]; simpl; [tauto|].
  destruct (trimEnd s) eqn:Ht.
  - destruct (is_white_space c); simpl.
    + split; intros _; [now apply IH | reflexivity].
    + split; discriminate.
  - split; [discriminate|].
    destruct (is_white_space c); simpl; [|discriminate].
    intros H. apply IH in H. discriminate.
Qed.

(** [s.trim()] is empty exactly when [s] consists of white space only. *)
Lemma trim_empty (s : string) :
  trim s = "" <-> all_white_space s = true.
Proof.
  unfold trim. rewrite trimEnd_empty, all_white_space_trimStart. tauto.
Qed.

Lemma truthy_false (s : string) : truthy s = false <-> s = "".
Proof. destruct s; simpl; split; congruence. Qed.

(** [!s.trim()] holds exactly for the white-space-only strings. *)
Lemma blank_all_white_space (s : string) :
  negb (truthy (trim s)) = all_white_space s.
Proof.
  destruct (all_white_space s) eqn:H.
  - apply trim_empty in H. now rewrite H.
  - destruct (trim s) eqn:Ht; [|reflexivity].
    apply trim_empty in Ht. congruence.
Qed.

Lemma or_else_empty (b : string) : or_else "" b = b.
Proof. reflexivity. Qed.

Lemma or_else_nonempty (a b : string) : a <> "" -> or_else a b = a.
Proof. destruct a; [congruence | reflexivity]. Qed.

End JsFacts.

(* ===================================================================== *)
(** ** Facts about the store's statements *)
(* ===================================================================== *)

Section BackendFacts.
Import Backend.
Context {A : Type} (key : A -> nat).

Lemma insert_by_perm (x : A) (l : list A) :
  Permutation (insert_by key x l) (x :: l).
Proof.
  induction l as [|y l IH]; simpl; [reflexivity|].
  destruct (key x <=? key y); [reflexivity|].
  rewrite IH. apply perm_swap.
Qed.

Lemma sort_by_perm (l : list A) : Permutation (sort_by key l) l.
Proof.
  induction l as [|x l IH]; simpl; [reflexivity|].
  rewrite insert_by_perm. now constructor.
Qed.

Lemma insert_by_hd (x a : A) (l : list A) :
  key_le key a x -> HdRel (key_le key) a l -> HdRel (key_le key) a (insert_by key x l).
Proof.
  intros Hax Hl. destruct l as [|y l]; simpl; [now constructor|].
  destruct (key x <=? key y); constructor; [exact Hax|].
  now inversion Hl.
Qed.

Lemma insert_by_sorted (x : A) (l : list A) :
  Sorted (key_le key) l -> Sorted (key_le key) (insert_by key x l).
Proof.
  induction 1 as [|y l Hs IH Hhd]; simpl.
  - repeat constructor.
  - destruct (key x <=? key y) eqn:Hxy.
    + apply Nat.leb_le in Hxy. constructor; [now constructor | now constructor].
    + apply Nat.leb_gt in Hxy. constructor; [exact IH|].
      apply insert_by_hd; [unfold key_le; lia | exact Hhd].
Qed.

Lemma sort_by_sorted (l : list A) : Sorted (key_le key) (sort_by key l).
Proof.
  induction l as [|x l IH]; simpl; [constructor | now apply insert_by_sorted].
Qed.

Lemma key_le_trans : Relations_1.Transitive (key_le key).
Proof. intros a b c. unfold key_le. lia. Qed.

Lemma sort_by_strongly_sorted (l : list A) : StronglySorted (key_le key) (sort_by key l).
Proof. apply Sorted_StronglySorted; [exact key_le_trans | apply sort_by_sorted]. Qed.

End BackendFacts.

Section SelectFacts.
Import Backend.

(** The rows a chat view's query returns are the session's rows, each
    once, with creation times that never decrease along the list. *)
Lemma select_chat_messages_ascending (sid : nat) (st : store) :
  StronglySorted (key_le created_at) (select_chat_messages sid true st) /\
  Permutation (select_chat_messages sid true st)
              (filter (fun m => session_id m =? sid) (chat_messages st)).
Proof.
  unfold select_chat_messages, order_by. split.
  - apply sort_by_strongly_sorted.
  - apply sort_by_perm.
Qed.

End SelectFacts.

(* ===================================================================== *)
(** ** Facts about parked continuations *)
(* ===================================================================== *)

Section RuntimeFacts.
Import Backend Runtime.
Context {V K : Type}.

Lemma nth_error_snoc {X : Type} (l : list X) (x : X) :
  nth_error (l ++ [x]) (length l) = Some x.
Proof. induction l; simpl; auto. Qed.

Lemma remove_nth_snoc {X : Type} (l : list X) (x : X) :
  remove_nth (length l) (l ++ [x]) = l.
Proof. induction l; simpl; [reflexivity | now f_equal]. Qed.

(** Settling the request that was parked last. *)
Lemma settle_last (resume : K -> reply -> option (action V K))
      (w : world V K) (l : list (request * K)) rq k o db' r a :
  tasks w = l ++ [(rq, k)] ->
  serve rq o (db w) = Some (db', r) ->
  resume k r = Some a ->
  settle resume (length l) o w
  = Some (a {| ui := ui w; db := db'; tasks := l; trace := trace w |}).
Proof.
  intros Ht Hs Hr. unfold settle.
  rewrite Ht, nth_error_snoc, Hs, Hr, remove_nth_snoc. reflexivity.
Qed.

(** Settling any request in flight. *)
Lemma settle_nth (resume : K -> reply -> option (action V K))
      (w : world V K) i rq k o db' r a :
  nth_error (tasks w) i = Some (rq, k) ->
  serve rq o (db w) = Some (db', r) ->
  resume k r = Some a ->
  settle resume i o w
  = Some (a {| ui := ui w; db := db'; tasks := remove_nth i (tasks w);
               trace := trace w |}).
Proof. intros Ht Hs Hr. unfold settle. now rewrite Ht, Hs, Hr. Qed.

Lemma calls_app (t1 t2 : list effect) (u : V) (d : store) (ts : list (request * K)) :
  calls {| ui := u; db := d; tasks := ts; trace := t1 ++ t2 |}
  = calls {| ui := u; db := d; tasks := ts; trace := t1 |}
    ++ flat_map (fun e => match e with Call rq => [rq] | _ => [] end) t2.
Proof. unfold calls. simpl. apply flat_map_app. Qed.

End RuntimeFacts.

(* ===================================================================== *)
(** ** The chat view: sending *)
(* ===================================================================== *)

Section SendFacts.
Import Js Backend Runtime ChatInterface.
Variable sessionId : nat.

(** The guard of [sendMessage] returns at once: nothing is issued,
    nothing is written. *)
Lemma sendMessage_blocked (r : render) content messageType imageData (w : world) :
  send_blocked r content imageData = true ->
  sendMessage r content messageType imageData w = w.
Proof. intros H. unfold sendMessage. now rewrite H. Qed.

(** Past the guard the function raises the busy flag and asks for the
    signed-in user. *)
Lemma sendMessage_started (r : render) content messageType imageData (w : world) :
  send_blocked r content imageData = false ->
  sendMessage r content messageType imageData w
  = await AuthGetUser (K_send_getUser r content messageType imageData)
      (setLoading true w).
Proof. intros H. unfold sendMessage. now rewrite H. Qed.

(** Whatever else is in flight, when the AI endpoint reports an error to
    a send that awaits it, that step leaves the store, the input value and
    the message list as they were and clears the busy flag. *)
Lemma invoke_error_step (w : world) i rq uid content messageType :
  nth_error (tasks w) i = Some (rq, K_send_invoke uid content messageType) ->
  (exists m s t im p, rq = InvokeGeminiChat m s t im p) ->
  exists w',
    step sessionId (E_settle i (O_invoke InvokeError)) w = Some w' /\
    db w' = db w /\
    calls w' = calls w /\
    loading (cells (ui w')) = false /\
    currentMessage (cells (ui w')) = currentMessage (cells (ui w)) /\
    messages (cells (ui w')) = messages (cells (ui w)).
Proof.
  intros Ht (m & s & t & im & p & ->).
  eexists. split.
  - simpl. eapply settle_nth; [exact Ht | reflexivity | reflexivity].
  - destruct w as [[c mr] d ts tr]. cbn.
    repeat split; try reflexivity.
    unfold calls. cbn. rewrite !flat_map_app. cbn. now rewrite !app_nil_r.
Qed.

(** C1, as the code has it.  A send that passed the guard, found a
    signed-in user and whose call to the AI endpoint reported an error or
    delivered no body: no row is inserted in [chat_messages] (the store is
    untouched and no insert is ever issued), the busy flag is clear, the
    input value and the message list are those from before the call,
    nothing is left in flight, and the error toast is shown.  This holds
    for every content, kind and optional image. *)
Theorem sendMessage_ai_failure
        (r : render) content messageType imageData uid (res : invoke_result) (w : world) :
  send_blocked r content imageData = false ->
  res = InvokeError \/ res = InvokeData None ->
  let n := length (tasks w) in
  exists w',
    run (step sessionId)
        [E_settle n (O_user (Some uid)); E_settle n (O_invoke res)]
        (sendMessage r content messageType imageData w) = Some w' /\
    db w' = db w /\
    chat_messages (db w') = chat_messages (db w) /\
    calls w' = calls w ++ [AuthGetUser;
                           InvokeGeminiChat content sessionId messageType imageData
                                            (systemPrompt r)] /\
    loading (cells (ui w')) = false /\
    currentMessage (cells (ui w')) = currentMessage (cells (ui w)) /\
    messages (cells (ui w')) = messages (cells (ui w)) /\
    tasks w' = tasks w /\
    toasts w' = toasts w ++ [Toast "Error" "Failed to send message" true].
Proof.
  intros Hg Hres n. subst n.
  rewrite (sendMessage_started _ _ _ _ _ Hg).
  destruct w as [[c mr] d ts tr].
  destruct Hres as [-> | ->].
  - eexists. split.
    + cbn [run step].
      erewrite settle_last; [| reflexivity | reflexivity | reflexivity].
      cbn [tasks await andThen ui db trace].
      erewrite settle_last; [| reflexivity | reflexivity | reflexivity].
      reflexivity.
    + cbn. repeat split; try reflexivity.
      * unfold calls. cbn. rewrite !flat_map_app. cbn. now rewrite <- !app_assoc.
      * unfold toasts. cbn. rewrite !filter_app. cbn. now rewrite !app_nil_r.
  - eexists. split.
    + cbn [run step].
      erewrite settle_last; [| reflexivity | reflexivity | reflexivity].
      cbn [tasks await andThen ui db trace].
      erewrite settle_last; [| reflexivity | reflexivity | reflexivity].
      reflexivity.
    + cbn. repeat split; try reflexivity.
      * unfold calls. cbn. rewrite !flat_map_app. cbn. now rewrite <- !app_assoc.
      * unfold toasts. cbn. rewrite !filter_app. cbn. now rewrite !app_nil_r.
Qed.

(** The function on its own, for arguments of any shape.  A call that
    passed the guard, found a signed-in user, got a reply body from the AI
    endpoint and whose insert succeeded adds exactly one row to
    [chat_messages], whatever the outcome of the timestamp update that
    follows.  The row's [message_type] is the kind passed in and its
    [ai_response] is the reply's [response] field.  Its [content] is the
    content passed in whenever that is not the empty string; it is
    ["Image uploaded"] when the content is the empty string, and then an
    image was supplied. *)
Lemma sendMessage_stored_row
        (r : render) content messageType imageData uid response ok (w : world) :
  send_blocked r content imageData = false ->
  let n := length (tasks w) in
  exists w' row,
    run (step sessionId)
        [E_settle n (O_user (Some uid));
         E_settle n (O_invoke (InvokeData (Some response)));
         E_settle n (O_store true);
         E_settle n (O_store ok)]
        (sendMessage r content messageType imageData w) = Some w' /\
    chat_messages (db w') = chat_messages (db w) ++ [row] /\
    message_type row = messageType /\
    ai_response row = response /\
    session_id row = sessionId /\
    user_id row = uid /\
    Backend.content row = or_else content "Image uploaded" /\
    (content <> "" -> Backend.content row = content) /\
    (content = "" ->
     Backend.content row = "Image uploaded" /\ truthy_opt imageData = true).
Proof.
  intros Hg n. subst n.
  rewrite (sendMessage_started _ _ _ _ _ Hg).
  destruct w as [[c mr] d ts tr].
  eexists. eexists. split.
  - cbn [run step].
    erewrite settle_last; [| reflexivity | reflexivity | reflexivity].
    cbn [tasks await andThen ui db trace].
    erewrite settle_last; [| reflexivity | reflexivity | reflexivity].
    cbn [tasks await andThen ui db trace].
    erewrite settle_last; [| reflexivity | reflexivity | reflexivity].
    cbn [tasks await andThen ui db trace].
    erewrite settle_last with (db' := if ok then _ else _) (r := R_write (negb ok));
      [| reflexivity | destruct ok; reflexivity | reflexivity].
    reflexivity.
  - cbn. split; [destruct ok; reflexivity|].
    repeat split; try reflexivity.
    + intros Hc. now apply or_else_nonempty.
    + subst content. reflexivity.
    + subst content. unfold send_blocked in Hg. cbn in Hg.
      apply orb_false_iff in Hg. destruct Hg as [Hg _].
      now apply negb_false_iff in Hg.
Qed.

(** C4.  After the row of a send has been inserted, a failure of the
    update of the session's timestamp changes nothing in the store (the
    row stays), shows no destructive toast, and the send ends as it ends
    when the update succeeds: the same component state, the same trace
    (with the toast "Message sent") and the same reload in flight. *)
Theorem timestamp_failure_is_silent
        (r : render) content messageType imageData uid response (w : world) :
  send_blocked r content imageData = false ->
  let n := length (tasks w) in
  let sent := [E_settle n (O_user (Some uid));
               E_settle n (O_invoke (InvokeData (Some response)));
               E_settle n (O_store true)] in
  exists w3 w4 w4',
    run (step sessionId) sent (sendMessage r content messageType imageData w) = Some w3 /\
    step sessionId (E_settle n (O_store false)) w3 = Some w4 /\
    step sessionId (E_settle n (O_store true)) w3 = Some w4' /\
    db w4 = db w3 /\
    chat_messages (db w4) =
      chat_messages (db w) ++
      [ {| id := next_id (db w); session_id := sessionId; user_id := uid;
           content := or_else content "Image uploaded";
           message_type := messageType; ai_response := response;
           image_url := None; created_at := clock (db w) |} ] /\
    destructive_toasts w4 = destructive_toasts w /\
    toasts w4 = toasts w ++
                [Toast "Message sent" "AI response generated successfully" false] /\
    ui w4 = ui w4' /\ trace w4 = trace w4' /\ tasks w4 = tasks w4' /\
    loading (cells (ui w4)) = false /\
    tasks w4 = tasks w ++ [(SelectChatMessages sessionId true, K_fetchMessages)].
Proof.
  intros Hg n sent. subst n sent.
  rewrite (sendMessage_started _ _ _ _ _ Hg).
  destruct w as [[c mr] d ts tr].
  eexists. eexists. eexists. split; [|split; [|split]].
  - cbn [run step].
    erewrite settle_last; [| reflexivity | reflexivity | reflexivity].
    cbn [tasks await andThen ui db trace].
    erewrite settle_last; [| reflexivity | reflexivity | reflexivity].
    cbn [tasks await andThen ui db trace].
    erewrite settle_last; [| reflexivity | reflexivity | reflexivity].
    reflexivity.
  - cbn [step tasks await andThen ui db trace].
    erewrite settle_last; [| reflexivity | reflexivity | reflexivity].
    reflexivity.
  - cbn [step tasks await andThen ui db trace].
    erewrite settle_last; [| reflexivity | reflexivity | reflexivity].
    reflexivity.
  - cbn. repeat split; try reflexivity.
    + unfold destructive_toasts. cbn. rewrite !filter_app. cbn.
      now rewrite !app_nil_r.
    + unfold toasts. cbn. rewrite !filter_app. cbn. now rewrite !app_nil_r.
Qed.

End SendFacts.

(* ===================================================================== *)
(** ** The chat view: what the busy flag does serialize *)
(* ===================================================================== *)

Section SerialFacts.
Import Js Backend Runtime ChatInterface.
Variable sessionId : nat.

Lemma remove_nth_filter_length {X : Type} (f : X -> bool) (l : list X) i t :
  nth_error l i = Some t ->
  length (filter f l) = (if f t then 1 else 0) + length (filter f (remove_nth i l)).
Proof.
  revert i. induction l as [|x l IH]; intros [|i] H; simpl in *; try discriminate.
  - injection H as ->. destruct (f t); reflexivity.
  - destruct (f x); simpl; rewrite (IH _ H); destruct (f t); simpl; lia.
Qed.

Lemma remove_nth_forallb {X : Type} (f : X -> bool) (l : list X) i :
  forallb f l = true -> forallb f (remove_nth i l) = true.
Proof.
  revert i. induction l as [|x l IH]; intros [|i] H; simpl in *; try reflexivity.
  - apply andb_true_iff in H. tauto.
  - apply andb_true_iff in H. destruct H as [Hx Hl].
    rewrite Hx. simpl. now apply IH.
Qed.

Lemma nth_error_forallb {X : Type} (f : X -> bool) (l : list X) i t :
  forallb f l = true -> nth_error l i = Some t -> f t = true.
Proof.
  intros H Hn. apply nth_error_In in Hn.
  rewrite forallb_forall in H. now apply H.
Qed.

Lemma sends_in_flight_snoc (u : view) d ts tr (t : request * cont) :
  sends_in_flight {| ui := u; db := d; tasks := ts ++ [t]; trace := tr |}
  = length (filter is_send ts) + (if is_send t then 1 else 0).
Proof.
  unfold sends_in_flight. simpl. rewrite filter_app, length_app. simpl.
  destruct (is_send t); reflexivity.
Qed.

(** A call of [sendMessage] by a handler of the current render keeps the
    view serialized. *)
Lemma sendMessage_current_render content messageType imageData (w : world) :
  serialized w ->
  serialized (sendMessage (cells (ui w)) content messageType imageData w).
Proof.
  intros (Hle & Hidle & Hcb). unfold sendMessage.
  destruct (send_blocked _ _ _) eqn:Hg; [now repeat split|].
  unfold send_blocked in Hg. apply orb_false_iff in Hg. destruct Hg as [_ Hl].
  specialize (Hidle Hl). destruct w as [[c mr] d ts tr].
  unfold serialized, sends_in_flight in *. cbn in *.
  rewrite filter_app, length_app, forallb_app, Hidle, Hcb. cbn.
  repeat split; [lia | discriminate].
Qed.

(** One event of the text field, the Send button, the mount effect, the
    clock or a settling request keeps the view serialized. *)
Lemma direct_step_serialized (e : event) (w w' : world) :
  direct e = true ->
  serialized w ->
  step sessionId e w = Some w' ->
  serialized w'.
Proof.
  intros He Hs Hstep. destruct e; try discriminate He; cbn [step] in Hstep.
  - (* mount *)
    injection Hstep as <-. destruct Hs as (Hle & Hidle & Hcb).
    destruct w as [[c mr] d ts tr]. unfold serialized, sends_in_flight in *. cbn in *.
    rewrite !filter_app, !length_app, !forallb_app, Hcb. cbn.
    repeat split; [lia | intros H; specialize (Hidle H); lia].
  - (* change *)
    destruct (loading (cells (ui w))); [discriminate|]. injection Hstep as <-.
    destruct w as [[c mr] d ts tr]. exact Hs.
  - (* Enter *)
    destruct (loading (cells (ui w))); [discriminate|]. injection Hstep as <-.
    now apply sendMessage_current_render.
  - (* Send *)
    destruct (_ || _); [discriminate|]. injection Hstep as <-.
    now apply sendMessage_current_render.
  - (* a request settles *)
    unfold settle in Hstep.
    destruct (nth_error (tasks w) i) as [[rq k]|] eqn:Hn; [|discriminate].
    destruct (serve rq o (db w)) as [[d' rp]|]; [|discriminate].
    destruct Hs as (Hle & Hidle & Hcb).
    pose proof (nth_error_forallb _ _ _ _ Hcb Hn) as Hk.
    pose proof (remove_nth_forallb _ _ i Hcb) as Hcb'.
    pose proof (remove_nth_filter_length is_send _ _ _ Hn) as Hlen.
    destruct w as [[c mr] d ts tr]. unfold serialized, sends_in_flight in *.
    cbn [tasks ui db trace cells] in *.
    destruct k; try discriminate Hk;
      destruct rp; try discriminate Hstep; cbn in Hstep;
      repeat match type of Hstep with
             | Some (match ?x with _ => _ end _) = _ => destruct x
             | Some ((if ?x then _ else _) _) = _ => destruct x
             end;
      injection Hstep as <-; cbn in *;
      rewrite ?filter_app, ?length_app, ?forallb_app, ?Hcb'; cbn;
      repeat split; try lia; try discriminate;
      try (intros H; specialize (Hidle H); lia).
  - (* tick *)
    injection Hstep as <-. destruct w as [[c mr] d ts tr]. exact Hs.
Qed.

(** Sends made from the text field and the Send button are serialized:
    over every schedule of such events, at most one send is in flight. *)
Lemma direct_sends_serialized (st : store) (es : list event) (w : world) :
  forallb direct es = true ->
  run (step sessionId) es (initial st) = Some w ->
  sends_in_flight w <= 1.
Proof.
  intros Hes Hrun.
  assert (Hgen : forall es w0 w1, forallb direct es = true -> serialized w0 ->
                   run (step sessionId) es w0 = Some w1 -> serialized w1).
  { clear. induction es as [|e es IH]; intros w0 w1 Hd Hs Hr; simpl in *.
    - now injection Hr as <-.
    - apply andb_true_iff in Hd. destruct Hd as [He Hd].
      destruct (step sessionId e w0) as [w2|] eqn:Hstep; [|discriminate].
      eapply IH; [exact Hd | | exact Hr].
      eapply direct_step_serialized; eassumption. }
  assert (Hinit : serialized (initial st)).
  { unfold serialized, sends_in_flight. cbn. repeat split; lia. }
  exact (proj1 (Hgen es _ _ Hes Hinit Hrun)).
Qed.

End SerialFacts.

(* ===================================================================== *)
(** ** The chat view: loading the transcript *)
(* ===================================================================== *)

Section FetchFacts.
Import Js Backend Runtime ChatInterface.
Variable sessionId : nat.

(** Wherever a reload is parked, a successful reply replaces the list by
    the rows the store returns for the parked query. *)
Lemma fetch_success_step (w : world) i sid asc :
  nth_error (tasks w) i = Some (SelectChatMessages sid asc, K_fetchMessages) ->
  exists w',
    step sessionId (E_settle i (O_store true)) w = Some w' /\
    messages (cells (ui w')) = select_chat_messages sid asc (db w) /\
    db w' = db w.
Proof.
  intros Ht. eexists. split.
  - simpl. eapply settle_nth; [exact Ht | reflexivity | reflexivity].
  - destruct w as [[c mr] d ts tr]. cbn. split; reflexivity.
Qed.

(** Wherever a reload is parked, a failed reply leaves the component
    state as it is. *)
Lemma fetch_failure_step (w : world) i sid asc :
  nth_error (tasks w) i = Some (SelectChatMessages sid asc, K_fetchMessages) ->
  exists w',
    step sessionId (E_settle i (O_store false)) w = Some w' /\
    ui w' = ui w /\ db w' = db w.
Proof.
  intros Ht. eexists. split.
  - simpl. eapply settle_nth; [exact Ht | reflexivity | reflexivity].
  - destruct w as [[c mr] d ts tr]. cbn. split; reflexivity.
Qed.

(** C8.  [fetchMessages] issues one query: the rows of [chat_messages]
    of this session, ordered by [created_at] ascending.  When the query
    succeeds the message list becomes the rows returned, whatever it held
    before: the session's rows of the table, each once, in ascending
    order of creation.  Nothing else of the component state changes. *)
Theorem fetchMessages_replaces_in_order (w : world) :
  let n := length (tasks w) in
  calls (fetchMessages sessionId w) = calls w ++ [SelectChatMessages sessionId true] /\
  exists w',
    run (step sessionId) [E_settle n (O_store true)] (fetchMessages sessionId w)
    = Some w' /\
    messages (cells (ui w')) = select_chat_messages sessionId true (db w) /\
    StronglySorted (key_le created_at) (messages (cells (ui w'))) /\
    Permutation (messages (cells (ui w')))
                (filter (fun m => session_id m =? sessionId) (chat_messages (db w))) /\
    currentMessage (cells (ui w')) = currentMessage (cells (ui w)) /\
    loading (cells (ui w')) = loading (cells (ui w)) /\
    db w' = db w /\
    tasks w' = tasks w.
Proof.
  intros n. subst n. destruct w as [[c mr] d ts tr]. split.
  - unfold calls. cbn. rewrite flat_map_app. reflexivity.
  - eexists. split.
    + cbn [run step fetchMessages].
      erewrite settle_last; [| reflexivity | reflexivity | reflexivity].
      reflexivity.
    + destruct (select_chat_messages_ascending sessionId d) as [Hs Hp].
      split; [reflexivity|].
      split; [exact Hs|].
      split; [exact Hp|].
      repeat split; reflexivity.
Qed.

(** C9.  When the query of [fetchMessages] fails, the message list is
    the one from before the call, as is the rest of the component state
    and the store; only the error is logged, and no toast is shown. *)
Theorem fetchMessages_failure_keeps_list (w : world) :
  let n := length (tasks w) in
  exists w',
    run (step sessionId) [E_settle n (O_store false)] (fetchMessages sessionId w)
    = Some w' /\
    messages (cells (ui w')) = messages (cells (ui w)) /\
    ui w' = ui w /\
    db w' = db w /\
    tasks w' = tasks w /\
    trace w' = trace w ++ [Call (SelectChatMessages sessionId true)]
                       ++ [ConsoleError "Error fetching messages:"].
Proof.
  intros n. subst n. destruct w as [[c mr] d ts tr].
  eexists. split.
  - cbn [run step fetchMessages].
    erewrite settle_last; [| reflexivity | reflexivity | reflexivity].
    reflexivity.
  - cbn. repeat split; try reflexivity. now rewrite <- app_assoc.
Qed.

End FetchFacts.

(* ===================================================================== *)
(** ** The session directory: creating a session *)
(* ===================================================================== *)

Section CreateFacts.
Import Js Backend Runtime SessionDashboard.

Lemma createSession_started (r : render) (w : world) :
  truthy (trim (sessionName r)) = true ->
  createSession r w = await AuthGetUser (K_create_getUser r) (setCreating true w).
Proof. intros H. unfold createSession. now rewrite H. Qed.

(** A creation that passed the name check, found a signed-in user and
    whose insert succeeded: the world it ends in. *)
Lemma createSession_success (r : render) uid (w : world) :
  truthy (trim (sessionName r)) = true ->
  let n := length (tasks w) in
  exists w',
    run step [E_settle n (O_user (Some uid)); E_settle n (O_store true)]
        (createSession r w) = Some w' /\
    Backend.sessions (db w') =
      Backend.sessions (db w) ++
      [ {| s_id := next_id (db w); s_user_id := uid; s_name := sessionName r;
           s_system_prompt := Some (systemPrompt r);
           s_created_at := clock (db w); s_updated_at := clock (db w) |} ] /\
    sessionName (ui w') = "" /\
    systemPrompt (ui w') = default_prompt /\
    createDialogOpen (ui w') = false /\
    creating (ui w') = false /\
    tasks w' = tasks w ++ [(SelectSessions false, K_fetchSessions)].
Proof.
  intros Hg n. subst n. rewrite (createSession_started _ _ Hg).
  destruct w as [c d ts tr]. eexists. split.
  - cbn [run step].
    erewrite settle_last; [| reflexivity | reflexivity | reflexivity].
    cbn [tasks await andThen ui db trace].
    erewrite settle_last; [| reflexivity | reflexivity | reflexivity].
    reflexivity.
  - cbn. repeat split; reflexivity.
Qed.

(** C6.  When the name trims to the empty string, [createSession] only
    shows the toast "Session name required": no request is issued or left
    in flight, the store is untouched, and the component state, with its
    list of sessions, is the one from before the call. *)
Theorem createSession_blank_name (r : render) (w : world) :
  trim (sessionName r) = "" ->
  let w' := createSession r w in
  trace w' = trace w ++ [Toast "Session name required"
                               "Please enter a name for your study session" true] /\
  calls w' = calls w /\
  tasks w' = tasks w /\
  db w' = db w /\
  ui w' = ui w /\
  sessions (ui w') = sessions (ui w).
Proof.
  intros Hb. unfold createSession. rewrite Hb. cbn.
  repeat split; try reflexivity.
  unfold calls. cbn. rewrite flat_map_app. cbn. now rewrite app_nil_r.
Qed.

(** C7, as the code has it.  A successful creation inserts one row whose
    [system_prompt] is the value the prompt field held when Create was
    pressed, whatever that value is; the field holds the fixed default
    text when the dashboard mounts and is put back to it by every
    successful creation. *)
Theorem createSession_stores_prompt_field (r : render) uid (w : world) :
  truthy (trim (sessionName r)) = true ->
  let n := length (tasks w) in
  systemPrompt initial_cells = default_prompt /\
  exists w' row,
    run step [E_settle n (O_user (Some uid)); E_settle n (O_store true)]
        (createSession r w) = Some w' /\
    Backend.sessions (db w') = Backend.sessions (db w) ++ [row] /\
    s_system_prompt row = Some (systemPrompt r) /\
    s_user_id row = uid /\
    systemPrompt (ui w') = default_prompt.
Proof.
  intros Hg n. split; [reflexivity|].
  destruct (createSession_success r uid w Hg) as (w' & Hrun & Hdb & _ & Hp & _).
  exists w'. eexists. split; [exact Hrun|].
  split; [exact Hdb|]. cbn. repeat split. exact Hp.
Qed.

(** C10.  When the name does not trim to the empty string, a successful
    creation inserts one row whose [name] is the value of the name field
    as it stands, untrimmed. *)
Theorem createSession_stores_name_verbatim (r : render) uid (w : world) :
  trim (sessionName r) <> "" ->
  let n := length (tasks w) in
  exists w' row,
    run step [E_settle n (O_user (Some uid)); E_settle n (O_store true)]
        (createSession r w) = Some w' /\
    Backend.sessions (db w') = Backend.sessions (db w) ++ [row] /\
    s_name row = sessionName r.
Proof.
  intros Hne n.
  assert (Hg : truthy (trim (sessionName r)) = true).
  { destruct (trim (sessionName r)); [congruence | reflexivity]. }
  destruct (createSession_success r uid w Hg) as (w' & Hrun & Hdb & _).
  exists w'. eexists. split; [exact Hrun|]. split; [exact Hdb|]. reflexivity.
Qed.

(** A user who opens the dialog, types a name and leaves the prompt field
    alone gets the default text stored. *)
Lemma untouched_prompt_stores_default (st : store) (name uid : string) :
  truthy (trim name) = true ->
  option_map (fun w => map s_system_prompt (Backend.sessions (db w)))
    (run step [E_mount; E_settle 0 (O_store true); E_dialog true; E_name name;
               E_create_click; E_settle 0 (O_user (Some uid)); E_settle 0 (O_store true)]
         (initial st))
  = Some (map s_system_prompt (Backend.sessions st) ++ [Some default_prompt]).
Proof.
  intros Hg. cbn -[trim default_prompt]. unfold createSession.
  cbn -[trim default_prompt]. rewrite Hg.
  cbn -[trim default_prompt]. now rewrite map_app.
Qed.

End CreateFacts.

(* ===================================================================== *)
(** ** Concrete runs *)
(* ===================================================================== *)

Section Runs.
Import Js Backend Runtime.

(** Mounting the view on the sample session loads its name, its prompt
    and its two stored turns, the earlier one first. *)
Lemma mount_loads_transcript :
  option_map (fun w => (ChatInterface.sessionName (ChatInterface.cells (ui w)),
                        map id (ChatInterface.messages (ChatInterface.cells (ui w)))))
    (run (ChatInterface.step 7)
         [ ChatInterface.E_mount; ChatInterface.E_settle 0 (O_store true);
           ChatInterface.E_settle 0 (O_store true) ]
         (ChatInterface.initial Sample.store2))
  = Some ("Algebra Review", [8; 9]).
Proof. reflexivity. Qed.

(** C1, as stated, fails when the failure is a malformed response: the
    user types a question and presses Enter, and the AI endpoint answers
    with a body that has no [response] field.  The send goes on: a row with
    an empty reply is inserted, the input is cleared and the toast says
    "Message sent". *)
Lemma missing_reply_is_stored :
  option_map
    (fun w => (map (fun m => (content m, ai_response m)) (chat_messages (db w)),
               ChatInterface.currentMessage (ChatInterface.cells (ui w)),
               toasts w))
    (run (ChatInterface.step 7)
         [ ChatInterface.E_change "What is a cell?"; ChatInterface.E_enter;
           ChatInterface.E_settle 0 (O_user (Some "u1"));
           ChatInterface.E_settle 0 (O_invoke (InvokeData (Some None)));
           ChatInterface.E_settle 0 (O_store true);
           ChatInterface.E_settle 0 (O_store true) ]
         (ChatInterface.initial Sample.store1))
  = Some ([("What is a cell?", None)], "",
          [Toast "Message sent" "AI response generated successfully" false]) /\
  chat_messages Sample.store1 = [].
Proof. split; reflexivity. Qed.

(** C7, as stated, fails: a prompt field the user has cleared is stored
    as the empty string, not as the default text. *)
Lemma cleared_prompt_is_stored_empty :
  option_map (fun w => map s_system_prompt (sessions (db w)))
    (run SessionDashboard.step Sample.create_with_cleared_prompt
         (SessionDashboard.initial Sample.empty_store))
  = Some [Some ""] /\
  "" <> SessionDashboard.default_prompt.
Proof. split; [reflexivity | discriminate]. Qed.

(** C2 at the failing input.  Two images are pasted in one event.  When
    the second image's [onload] calls [sendMessage], the first image's
    send is in flight and the live busy flag is set; the call reads the
    flag of the render in which the paste happened, passes the guard and
    issues its own request. *)
Lemma stale_flag_send_proceeds :
  let observe := fun w : ChatInterface.world =>
    (ChatInterface.loading (ChatInterface.cells (ui w)),
     ChatInterface.sends_in_flight w, calls w) in
  option_map observe
    (run (ChatInterface.step 7) Sample.paste_two_first_read
         (ChatInterface.initial Sample.store1))
  = Some (true, 1, [ReadAsDataURL "AAAA"; ReadAsDataURL "BBBB"; AuthGetUser]) /\
  option_map observe
    (run (ChatInterface.step 7) Sample.paste_two_both_read
         (ChatInterface.initial Sample.store1))
  = Some (true, 2, [ReadAsDataURL "AAAA"; ReadAsDataURL "BBBB"; AuthGetUser; AuthGetUser]) /\
  run (ChatInterface.step 7) Sample.paste_two_both_read
      (ChatInterface.initial Sample.store1)
  = Some (ChatInterface.sendMessage ChatInterface.initial_cells "" image (Some "BBBB")
                                    Sample.first_send_in_flight) /\
  ChatInterface.loading (ChatInterface.cells (ui Sample.first_send_in_flight)) = true /\
  ChatInterface.sendMessage ChatInterface.initial_cells "" image (Some "BBBB")
                            Sample.first_send_in_flight
  <> Sample.first_send_in_flight.
Proof. repeat split; try reflexivity. discriminate. Qed.

(** C5 at the failing input.  After one paste of two images both sends
    have passed the guard and are in flight together: both have asked for
    the user, and then both calls to the AI endpoint are pending at the
    same time. *)
Lemma pasted_images_overlap :
  option_map (fun w => (ChatInterface.sends_in_flight w, map fst (tasks w)))
    (run (ChatInterface.step 7) Sample.paste_two_both_read
         (ChatInterface.initial Sample.store1))
  = Some (2, [AuthGetUser; AuthGetUser]) /\
  option_map (fun w => (ChatInterface.sends_in_flight w, map fst (tasks w)))
    (run (ChatInterface.step 7) Sample.paste_two_both_asking
         (ChatInterface.initial Sample.store1))
  = Some (2, [InvokeGeminiChat "" 7 image (Some "AAAA") (Some "");
              InvokeGeminiChat "" 7 image (Some "BBBB") (Some "")]).
Proof. split; reflexivity. Qed.

(** The voice entry point overlaps in the same way: the transcription's
    callback belongs to the render in which recording was started. *)
Lemma spoken_send_overlaps_typed_send :
  option_map (fun w => (ChatInterface.sends_in_flight w, map fst (tasks w)))
    (run (ChatInterface.step 7) Sample.speak_then_type
         (ChatInterface.initial Sample.store1))
  = Some (2, [AuthGetUser; AuthGetUser]).
Proof. reflexivity. Qed.

(** Hence sends are not serialized over all schedules of a view. *)
Lemma sends_not_serialized :
  ~ (forall es w,
        run (ChatInterface.step 7) es (ChatInterface.initial Sample.store1) = Some w ->
        ChatInterface.sends_in_flight w <= 1).
Proof.
  intros H.
  specialize (H Sample.paste_two_both_read _ eq_refl).
  vm_compute in H. lia.
Qed.

End Runs.

(* ===================================================================== *)
(** ** The theorems at concrete inputs *)
(* ===================================================================== *)

Section Instances.
Import Js Backend Runtime.

(** A typed question whose AI call fails, in the sample session. *)
Lemma sendMessage_ai_failure_witness :
  ChatInterface.send_blocked (Sample.typed "What is the derivative of x^2?")
                             "What is the derivative of x^2?" None = false /\
  (InvokeData None = InvokeError \/ InvokeData None = InvokeData None) /\
  exists w',
    run (ChatInterface.step 7)
        [ ChatInterface.E_settle 0 (O_user (Some "u1"));
          ChatInterface.E_settle 0 (O_invoke (InvokeData None)) ]
        (ChatInterface.sendMessage (Sample.typed "What is the derivative of x^2?")
                                   "What is the derivative of x^2?" text None
                                   (ChatInterface.initial Sample.store1)) = Some w' /\
    chat_messages (db w') = [] /\
    ChatInterface.loading (ChatInterface.cells (ui w')) = false.
Proof.
  split; [reflexivity|]. split; [right; reflexivity|].
  destruct (sendMessage_ai_failure 7 (Sample.typed "What is the derivative of x^2?")
              "What is the derivative of x^2?" text None "u1" (InvokeData None)
              (ChatInterface.initial Sample.store1) eq_refl (or_intror eq_refl))
    as (w' & Hrun & _ & Hrows & _ & Hflag & _).
  exists w'. split; [exact Hrun|]. split; [exact Hrows | exact Hflag].
Defined.

(** An uploaded image without caption, answered and stored. *)
Lemma sendMessage_stored_row_witness :
  ChatInterface.send_blocked ChatInterface.initial_cells "" (Some "QUJD") = false /\
  exists w' row,
    run (ChatInterface.step 7)
        [ ChatInterface.E_settle 0 (O_user (Some "u1"));
          ChatInterface.E_settle 0 (O_invoke (InvokeData (Some (Some "A parabola."))));
          ChatInterface.E_settle 0 (O_store true);
          ChatInterface.E_settle 0 (O_store true) ]
        (ChatInterface.sendMessage ChatInterface.initial_cells "" image (Some "QUJD")
                                   (ChatInterface.initial Sample.store1)) = Some w' /\
    chat_messages (db w') = [row] /\
    content row = "Image uploaded" /\
    message_type row = image /\
    ai_response row = Some "A parabola.".
Proof.
  split; [reflexivity|].
  destruct (sendMessage_stored_row 7 ChatInterface.initial_cells "" image (Some "QUJD")
              "u1" (Some "A parabola.") true (ChatInterface.initial Sample.store1) eq_refl)
    as (w' & row & Hrun & Hrows & Hty & Hai & _ & _ & Hc & _).
  exists w', row. split; [exact Hrun|]. split; [exact Hrows|].
  split; [exact Hc|]. split; [exact Hty | exact Hai].
Defined.

(** A typed question answered and stored, whose timestamp update fails. *)
Lemma timestamp_failure_is_silent_witness :
  ChatInterface.send_blocked (Sample.typed "What is the derivative of x^2?")
                             "What is the derivative of x^2?" None = false /\
  exists w3 w4,
    run (ChatInterface.step 7)
        [ ChatInterface.E_settle 0 (O_user (Some "u1"));
          ChatInterface.E_settle 0 (O_invoke (InvokeData (Some (Some "2x"))));
          ChatInterface.E_settle 0 (O_store true) ]
        (ChatInterface.sendMessage (Sample.typed "What is the derivative of x^2?")
                                   "What is the derivative of x^2?" text None
                                   (ChatInterface.initial Sample.store1)) = Some w3 /\
    ChatInterface.step 7 (ChatInterface.E_settle 0 (O_store false)) w3 = Some w4 /\
    db w4 = db w3 /\
    destructive_toasts w4 = [].
Proof.
  split; [reflexivity|].
  destruct (timestamp_failure_is_silent 7 (Sample.typed "What is the derivative of x^2?")
              "What is the derivative of x^2?" text None "u1" (Some "2x")
              (ChatInterface.initial Sample.store1) eq_refl)
    as (w3 & w4 & w4' & Hrun & Hfail & _ & Hdb & _ & Hquiet & _).
  exists w3, w4. split; [exact Hrun|]. split; [exact Hfail|].
  split; [exact Hdb | exact Hquiet].
Defined.

(** A name of three spaces. *)
Lemma createSession_blank_name_witness :
  trim (SessionDashboard.sessionName (Sample.dialog "   " "Be brief.")) = "" /\
  calls (SessionDashboard.createSession (Sample.dialog "   " "Be brief.")
           (SessionDashboard.initial Sample.store1)) = [] /\
  db (SessionDashboard.createSession (Sample.dialog "   " "Be brief.")
           (SessionDashboard.initial Sample.store1)) = Sample.store1.
Proof.
  split; [reflexivity|].
  destruct (createSession_blank_name (Sample.dialog "   " "Be brief.")
              (SessionDashboard.initial Sample.store1) eq_refl)
    as (_ & Hcalls & _ & Hdb & _).
  split; [exact Hcalls | exact Hdb].
Defined.

(** A session created with a prompt of the user's own. *)
Lemma createSession_stores_prompt_field_witness :
  truthy (trim (SessionDashboard.sessionName (Sample.dialog "Botany" "Be brief."))) = true /\
  exists w' row,
    run SessionDashboard.step
        [ SessionDashboard.E_settle 0 (O_user (Some "u1"));
          SessionDashboard.E_settle 0 (O_store true) ]
        (SessionDashboard.createSession (Sample.dialog "Botany" "Be brief.")
           (SessionDashboard.initial Sample.empty_store)) = Some w' /\
    sessions (db w') = [row] /\
    s_system_prompt row = Some "Be brief.".
Proof.
  split; [reflexivity|].
  destruct (createSession_stores_prompt_field (Sample.dialog "Botany" "Be brief.") "u1"
              (SessionDashboard.initial Sample.empty_store) eq_refl)
    as (_ & w' & row & Hrun & Hrows & Hprompt & _).
  exists w', row. split; [exact Hrun|]. split; [exact Hrows | exact Hprompt].
Defined.

(** A name with blanks around it. *)
Lemma createSession_stores_name_verbatim_witness :
  trim (SessionDashboard.sessionName (Sample.dialog "  Botany " "Be brief.")) <> "" /\
  exists w' row,
    run SessionDashboard.step
        [ SessionDashboard.E_settle 0 (O_user (Some "u1"));
          SessionDashboard.E_settle 0 (O_store true) ]
        (SessionDashboard.createSession (Sample.dialog "  Botany " "Be brief.")
           (SessionDashboard.initial Sample.empty_store)) = Some w' /\
    sessions (db w') = [row] /\
    s_name row = "  Botany ".
Proof.
  assert (Hne : trim (SessionDashboard.sessionName (Sample.dialog "  Botany " "Be brief."))
                <> "") by (vm_compute; discriminate).
  split; [exact Hne|].
  destruct (createSession_stores_name_verbatim (Sample.dialog "  Botany " "Be brief.") "u1"
              (SessionDashboard.initial Sample.empty_store) Hne)
    as (w' & row & Hrun & Hrows & Hname).
  exists w', row. split; [exact Hrun|]. split; [exact Hrows | exact Hname].
Defined.

End Instances.

(* ===================================================================== *)
(** ** The store: ordering and timestamps *)
(* ===================================================================== *)

Section StoreFacts.
Import Backend Scenario.

Lemma insert_by_desc_perm {A : Type} (key : A -> nat) (x : A) (l : list A) :
  Permutation (insert_by_desc key x l) (x :: l).
Proof.
  induction l as [|y l IH]; simpl; [reflexivity|].
  destruct (key y <=? key x); [reflexivity|].
  rewrite IH. apply perm_swap.
Qed.

Lemma sort_by_desc_perm {A : Type} (key : A -> nat) (l : list A) :
  Permutation (sort_by_desc key l) l.
Proof.
  induction l as [|x l IH]; simpl; [reflexivity|].
  rewrite insert_by_desc_perm. now constructor.
Qed.

Lemma insert_by_desc_hd {A : Type} (key : A -> nat) (x a : A) (l : list A) :
  key_ge key a x -> HdRel (key_ge key) a l -> HdRel (key_ge key) a (insert_by_desc key x l).
Proof.
  intros Hax Hl. destruct l as [|y l]; simpl; [now constructor|].
  destruct (key y <=? key x); constructor; [exact Hax|].
  now inversion Hl.
Qed.

Lemma insert_by_desc_sorted {A : Type} (key : A -> nat) (x : A) (l : list A) :
  Sorted (key_ge key) l -> Sorted (key_ge key) (insert_by_desc key x l).
Proof.
  induction 1 as [|y l Hs IH Hhd]; simpl.
  - repeat constructor.
  - destruct (key y <=? key x) eqn:Hxy.
    + apply Nat.leb_le in Hxy. constructor; [now constructor | now constructor].
    + apply Nat.leb_gt in Hxy. constructor; [exact IH|].
      apply insert_by_desc_hd; [unfold key_ge; lia | exact Hhd].
Qed.

Lemma key_ge_trans {A : Type} (key : A -> nat) : Relations_1.Transitive (key_ge key).
Proof. intros a b c. unfold key_ge. lia. Qed.

(** [ORDER BY key DESC] returns the rows, each once, with keys that never
    increase along the list. *)
Lemma order_by_descending {A : Type} (key : A -> nat) (l : list A) :
  StronglySorted (key_ge key) (order_by key false l) /\
  Permutation (order_by key false l) l.
Proof.
  unfold order_by. split.
  - apply Sorted_StronglySorted; [apply key_ge_trans|].
    induction l as [|x l IH]; simpl; [constructor | now apply insert_by_desc_sorted].
  - apply sort_by_desc_perm.
Qed.

(** A row appended to the table with a key larger than any other comes
    first in descending order. *)
Lemma sort_by_desc_snoc {A : Type} (key : A -> nat) (x : A) (l : list A) :
  Forall (fun y => key y < key x) l ->
  sort_by_desc key (l ++ [x]) = x :: sort_by_desc key l.
Proof.
  induction 1 as [|y l Hy Hl IH]; simpl; [reflexivity|].
  rewrite IH. simpl. apply Nat.leb_gt in Hy. now rewrite Hy.
Qed.

Lemma touch_session_rows (sid : nat) (st : store) :
  chat_messages (touch_session sid st) = chat_messages st /\
  clock (touch_session sid st) = clock st /\
  next_id (touch_session sid st) = next_id st.
Proof. repeat split. Qed.

(** The timestamp update writes one column of the matching rows: every
    session keeps its identifier, owner, name, prompt and creation time,
    the sessions with the given identifier get the server's time as
    [updated_at], whatever the client sent, and the others keep theirs; no
    message is touched. *)
Theorem touch_session_only_updated_at (sid : nat) (st : store) :
  map s_id (sessions (touch_session sid st)) = map s_id (sessions st) /\
  map s_user_id (sessions (touch_session sid st)) = map s_user_id (sessions st) /\
  map s_name (sessions (touch_session sid st)) = map s_name (sessions st) /\
  map s_system_prompt (sessions (touch_session sid st))
  = map s_system_prompt (sessions st) /\
  map s_created_at (sessions (touch_session sid st)) = map s_created_at (sessions st) /\
  map s_updated_at (sessions (touch_session sid st))
  = map (fun s => if s_id s =? sid then clock st else s_updated_at s) (sessions st) /\
  chat_messages (touch_session sid st) = chat_messages st.
Proof.
  unfold touch_session. cbn [sessions chat_messages].
  rewrite !map_map.
  repeat split; apply map_ext; intros s; destruct (s_id s =? sid); reflexivity.
Qed.

Lemma timestamps_ok_tick (st : store) : timestamps_ok st -> timestamps_ok (tick st).
Proof.
  intros [Hs Hm]. split; cbn.
  - eapply Forall_impl; [|exact Hs]. cbn. intros s [H1 H2]. split; lia.
  - eapply Forall_impl; [|exact Hm]. cbn. intros m H. lia.
Qed.

(** Whatever request the backend serves, and whatever its outcome, the
    store keeps its timestamps in order: no session is updated before it
    was created, and nothing is stamped later than the server clock. *)
Theorem serve_keeps_timestamps (rq : request) (o : outcome) (st st' : store) (rp : reply) :
  timestamps_ok st ->
  serve rq o st = Some (st', rp) ->
  timestamps_ok st'.
Proof.
  intros [Hs Hm] Hserve.
  destruct rq, o; try discriminate Hserve; cbn in Hserve;
    try (destruct ok); try discriminate Hserve;
    try (injection Hserve as <- _; split; assumption).
  - (* insert into sessions *)
    injection Hserve as <- _. split; cbn; [|exact Hm].
    apply Forall_app. split; [exact Hs|]. constructor; [cbn; lia | constructor].
  - (* insert into chat_messages *)
    injection Hserve as <- _. split; cbn; [exact Hs|].
    apply Forall_app. split; [exact Hm|]. constructor; [cbn; lia | constructor].
  - (* update of a session *)
    injection Hserve as <- _. split; cbn; [|exact Hm].
    apply Forall_map. eapply Forall_impl; [|exact Hs]. cbn.
    intros s [H1 H2]. destruct (s_id s =? sid); cbn; lia.
Qed.

End StoreFacts.

(* ===================================================================== *)
(** ** The chat view: a send from its call to its end *)
(* ===================================================================== *)

Section SendOutcomes.
Import Js Backend Runtime ChatInterface Scenario.
Variable sessionId : nat.

Ltac settle_next :=
  erewrite settle_last; [| reflexivity | reflexivity | reflexivity];
  cbn [tasks await andThen ui db trace].

Ltac finish_send :=
  cbn; repeat split; try (intros; reflexivity); try discriminate;
  try (unfold toasts; cbn; rewrite !filter_app; cbn; now rewrite ?app_nil_r);
  try (cbn; lia); try (now rewrite app_nil_r).

(** Every send that passed the guard runs to an end, whatever the four
    requests answer.  At its end the busy flag is clear and exactly one
    toast has been added.  It has inserted one row if a user was signed in,
    the AI endpoint delivered a body and the insert went through, and then
    the input is cleared and one reload is in flight; otherwise the store
    and the input are as before and nothing is in flight.  The message list
    itself is not written by the send. *)
Theorem send_outcome
        (r : render) content messageType imageData
        (user : option string) (res : invoke_result) (insert_ok update_ok : bool)
        (w : world) :
  send_blocked r content imageData = false ->
  let ok := send_succeeds user res insert_ok in
  exists w',
    run (step sessionId)
        (send_events (length (tasks w)) user res insert_ok update_ok)
        (sendMessage r content messageType imageData w) = Some w' /\
    loading (cells (ui w')) = false /\
    toasts w' = toasts w ++ [send_toast ok] /\
    length (chat_messages (db w')) = length (chat_messages (db w)) + (if ok then 1 else 0) /\
    tasks w' = tasks w ++ (if ok then [(SelectChatMessages sessionId true, K_fetchMessages)]
                           else []) /\
    currentMessage (cells (ui w')) = (if ok then "" else currentMessage (cells (ui w))) /\
    messages (cells (ui w')) = messages (cells (ui w)) /\
    (ok = false -> db w' = db w).
Proof.
  intros Hg ok. subst ok.
  rewrite (sendMessage_started _ _ _ _ _ Hg).
  destruct w as [[c mr] d ts tr].
  unfold send_events, send_succeeds.
  destruct user as [uid|]; [destruct res as [|[response|]]; [| destruct insert_ok |] |];
    eexists; (split; [cbn [run step]|]).
  - do 2 settle_next. reflexivity.
  - finish_send.
  - do 3 settle_next.
    erewrite settle_last with (db' := if update_ok then _ else _)
                              (r := R_write (negb update_ok));
      [| reflexivity | destruct update_ok; reflexivity | reflexivity].
    reflexivity.
  - finish_send. destruct update_ok; cbn; rewrite length_app; reflexivity.
  - do 3 settle_next. reflexivity.
  - finish_send.
  - do 2 settle_next. reflexivity.
  - finish_send.
  - settle_next. reflexivity.
  - finish_send.
Qed.

Lemma select_chat_messages_in (sid : nat) (st : store) (m : chat_message) :
  In m (select_chat_messages sid true st) <->
  In m (chat_messages st) /\ session_id m = sid.
Proof.
  destruct (select_chat_messages_ascending sid st) as [_ Hp].
  split.
  - intros H. apply (Permutation_in _ Hp) in H. apply filter_In in H.
    destruct H as [H1 H2]. apply Nat.eqb_eq in H2. tauto.
  - intros [H1 H2]. apply (Permutation_in _ (Permutation_sym Hp)).
    apply filter_In. split; [exact H1 | now apply Nat.eqb_eq].
Qed.

(** A send that stored its turn, followed by its reload: the transcript on
    screen is in ascending order of creation and contains the new turn,
    with the content stored, the kind passed in and the AI's reply; the
    input is empty and the busy flag clear. *)
Theorem send_then_reload_shows_turn
        (r : render) content messageType imageData uid response update_ok (w : world) :
  send_blocked r content imageData = false ->
  let n := length (tasks w) in
  exists w' row,
    run (step sessionId)
        (send_events n (Some uid) (InvokeData (Some response)) true update_ok
         ++ [E_settle n (O_store true)])
        (sendMessage r content messageType imageData w) = Some w' /\
    In row (messages (cells (ui w'))) /\
    id row = next_id (db w) /\
    Backend.content row = or_else content "Image uploaded" /\
    message_type row = messageType /\
    ai_response row = response /\
    StronglySorted (key_le created_at) (messages (cells (ui w'))) /\
    (forall m, In m (messages (cells (ui w'))) <->
               (In m (chat_messages (db w)) /\ session_id m = sessionId) \/ m = row) /\
    currentMessage (cells (ui w')) = "" /\
    loading (cells (ui w')) = false /\
    tasks w' = tasks w.
Proof.
  intros Hg n. subst n.
  rewrite (sendMessage_started _ _ _ _ _ Hg).
  destruct w as [[c mr] d ts tr].
  set (row := {| id := next_id d; session_id := sessionId; user_id := uid;
                 content := or_else content "Image uploaded";
                 message_type := messageType; ai_response := response;
                 image_url := None; created_at := clock d |}).
  set (d3 := insert_chat_message
               {| n_session_id := sessionId; n_user_id := uid;
                  n_content := or_else content "Image uploaded";
                  n_message_type := messageType; n_ai_response := response |} d).
  set (d4 := if update_ok then touch_session sessionId d3 else d3).
  assert (Hrows : chat_messages d4 = chat_messages d ++ [row]).
  { subst d4 d3. destruct update_ok; reflexivity. }
  assert (Hin : forall m, In m (select_chat_messages sessionId true d4) <->
                          (In m (chat_messages d) /\ session_id m = sessionId) \/ m = row).
  { intros m. rewrite select_chat_messages_in, Hrows, in_app_iff. cbn.
    split.
    - intros [[H|[H|[]]] Hs]; [left; tauto | right; congruence].
    - intros [[H Hs]|H]; [tauto | subst m; split; [right; now left | reflexivity]]. }
  exists {| ui := {| cells := {| messages := select_chat_messages sessionId true d4;
                                 currentMessage := ""; loading := false;
                                 sessionName := sessionName c;
                                 systemPrompt := systemPrompt c;
                                 isRecording := isRecording c |};
                     mediaRecorderRef := mr |};
            db := d4; tasks := ts;
            trace := ((((((tr ++ [Call AuthGetUser])
                          ++ [Call (InvokeGeminiChat content sessionId messageType
                                                     imageData (systemPrompt r))])
                         ++ [Call (InsertChatMessage
                                     {| n_session_id := sessionId; n_user_id := uid;
                                        n_content := or_else content "Image uploaded";
                                        n_message_type := messageType;
                                        n_ai_response := response |})])
                        ++ [Call (UpdateSessionTimestamp sessionId)])
                       ++ [Call (SelectChatMessages sessionId true)])
                      ++ [Toast "Message sent" "AI response generated successfully" false]) |}.
  exists row. split.
  - unfold send_events. cbn [app run step]. do 3 settle_next.
    erewrite settle_last with (db' := d4) (r := R_write (negb update_ok));
      [| reflexivity | subst d4 d3; destruct update_ok; reflexivity | reflexivity].
    cbn [tasks await andThen ui db trace fetchMessages setCurrentMessage toast emit
         setLoading on_cells setState cells].
    erewrite settle_last; [| reflexivity | reflexivity | reflexivity].
    reflexivity.
  - cbn [ui cells messages currentMessage loading tasks].
    split; [apply Hin; now right|].
    repeat split; try reflexivity.
    + apply select_chat_messages_ascending.
    + apply Hin.
    + apply Hin.
Qed.

End SendOutcomes.

(* ===================================================================== *)
(** ** The chat view: images *)
(* ===================================================================== *)

Section ImageFacts.
Import Js Backend Runtime ChatInterface Scenario.
Variable sessionId : nat.

Lemma handlePasteImage_spec (r : render) (items : list clipboard_item) (w : world) :
  handlePasteImage r items w
  = {| ui := ui w; db := db w;
       tasks := tasks w ++ map (fun p => (ReadAsDataURL p, K_image_onload r))
                               (image_files items);
       trace := trace w ++ map (fun p => Call (ReadAsDataURL p)) (image_files items) |}.
Proof.
  revert w. induction items as [|item items IH]; intros w.
  - destruct w. cbn. now rewrite !app_nil_r.
  - cbn [handlePasteImage]. unfold andThen at 1. rewrite IH.
    unfold image_files. cbn [flat_map]. fold (image_files items).
    destruct (String.prefix "image/" (item_type item));
      [destruct (getAsFile item) as [payload|] |]; cbn; try reflexivity.
    now rewrite <- !app_assoc.
Qed.

(** A paste starts one read per clipboard item that is an image and
    carries a file, in clipboard order, each with a callback of the render
    in which the paste happened, and nothing else: it starts no send, shows
    no toast, and leaves the state and the store as they are.  A clipboard
    without such items leaves no trace at all. *)
Theorem handlePasteImage_reads (r : render) (items : list clipboard_item) (w : world) :
  let w' := handlePasteImage r items w in
  tasks w' = tasks w ++ map (fun p => (ReadAsDataURL p, K_image_onload r))
                            (image_files items) /\
  calls w' = calls w ++ map ReadAsDataURL (image_files items) /\
  toasts w' = toasts w /\
  sends_in_flight w' = sends_in_flight w /\
  ui w' = ui w /\
  db w' = db w.
Proof.
  intros w'. subst w'. rewrite handlePasteImage_spec.
  repeat split; try reflexivity.
  - unfold calls. cbn. rewrite flat_map_app. f_equal.
    induction (image_files items) as [|p l IH]; cbn; [reflexivity | now rewrite IH].
  - unfold toasts. cbn. rewrite filter_app.
    induction (image_files items) as [|p l IH]; cbn; [now rewrite app_nil_r | exact IH].
  - unfold sends_in_flight. cbn. rewrite filter_app, length_app.
    induction (image_files items) as [|p l IH]; cbn; [lia | exact IH].
Qed.

(** An image whose payload is empty is dropped without a word: when its
    read completes, [sendMessage] returns at the guard, so no request is
    issued, no toast is shown and neither the state nor the store changes.
    The same holds for a file input that reports no file. *)
Theorem empty_image_is_dropped (r : render) (w : world) :
  let n := length (tasks w) in
  handleImageUpload r None w = w /\
  exists w',
    run (step sessionId) [E_settle n O_loaded] (handleImageUpload r (Some "") w)
    = Some w' /\
    ui w' = ui w /\ db w' = db w /\ tasks w' = tasks w /\
    trace w' = trace w ++ [Call (ReadAsDataURL "")].
Proof.
  intros n. subst n. split; [reflexivity|].
  destruct w as [[c mr] d ts tr]. eexists. split.
  - cbn [run step handleImageUpload].
    erewrite settle_last; [| reflexivity | reflexivity | reflexivity].
    reflexivity.
  - cbn. repeat split; reflexivity.
Qed.

End ImageFacts.

(* ===================================================================== *)
(** ** The chat view: what every schedule preserves *)
(* ===================================================================== *)

Section ChatInvariants.
Import Js Backend Runtime ChatInterface Scenario.
Variable sessionId : nat.

Lemma forallb_image_callbacks (f : request * cont -> bool) (r : render) (l : list string) :
  (forall p, f (ReadAsDataURL p, K_image_onload r) = true) ->
  forallb f (map (fun p => (ReadAsDataURL p, K_image_onload r)) l) = true.
Proof. intros Hf. induction l; simpl; [reflexivity | now rewrite Hf]. Qed.

Lemma select_chat_messages_session (sid : nat) (st : store) :
  Forall (fun m => session_id m = sid) (select_chat_messages sid true st).
Proof.
  apply Forall_forall. intros m H.
  now apply (select_chat_messages_in sid st m) in H.
Qed.

(** Unfolds one settled continuation down to the world it produces. *)
Ltac crunch Hstep :=
  cbn in Hstep;
  repeat match type of Hstep with
         | Some (match ?x with _ => _ end _) = _ => destruct x
         | Some ((if ?x then _ else _) _) = _ => destruct x
         end;
  injection Hstep as <-.

Lemma sendMessage_transcript_ok (r : render) content messageType imageData (w : world) :
  transcript_ok sessionId w ->
  transcript_ok sessionId (sendMessage r content messageType imageData w).
Proof.
  intros (Ht & Hs & Hf). unfold sendMessage.
  destruct (send_blocked _ _ _); [now repeat split|].
  destruct w as [[c mr] d ts tr]. unfold transcript_ok in *. cbn in *.
  rewrite forallb_app, Ht. now repeat split.
Qed.

Lemma step_transcript_ok (e : event) (w w' : world) :
  transcript_ok sessionId w ->
  step sessionId e w = Some w' ->
  transcript_ok sessionId w'.
Proof.
  intros Hs Hstep. destruct e; cbn [step] in Hstep.
  - (* mount *)
    injection Hstep as <-. destruct Hs as (Ht & Hs & Hf).
    destruct w as [[c mr] d ts tr]. unfold transcript_ok in *. cbn in *.
    rewrite !forallb_app, Ht. cbn. rewrite Nat.eqb_refl. now repeat split.
  - (* change *)
    destruct (loading (cells (ui w))); [discriminate|]. injection Hstep as <-.
    destruct w as [[c mr] d ts tr]. exact Hs.
  - (* Enter *)
    destruct (loading (cells (ui w))); [discriminate|]. injection Hstep as <-.
    now apply sendMessage_transcript_ok.
  - (* Send *)
    destruct (_ || _); [discriminate|]. injection Hstep as <-.
    now apply sendMessage_transcript_ok.
  - (* paste *)
    destruct (loading (cells (ui w))); [discriminate|]. injection Hstep as <-.
    rewrite handlePasteImage_spec.
    destruct Hs as (Ht & Hs & Hf). unfold transcript_ok. cbn.
    rewrite forallb_app, Ht, forallb_image_callbacks by reflexivity.
    now repeat split.
  - (* file *)
    injection Hstep as <-. destruct Hs as (Ht & Hs & Hf).
    destruct w as [[c mr] d ts tr], file; unfold transcript_ok in *; cbn in *;
      rewrite ?forallb_app, ?Ht; now repeat split.
  - (* microphone *)
    destruct (loading (cells (ui w))); [discriminate|]. injection Hstep as <-.
    destruct Hs as (Ht & Hs & Hf).
    destruct w as [[c mr] d ts tr]. unfold handleVoiceRecording, transcript_ok in *.
    cbn in *. destruct (isRecording c); [destruct mr|]; cbn;
      rewrite ?forallb_app, ?Ht; now repeat split.
  - (* a request settles *)
    unfold settle in Hstep.
    destruct (nth_error (tasks w) i) as [[rq k]|] eqn:Hn; [|discriminate].
    destruct (serve rq o (db w)) as [[d' rp]|] eqn:Hserve; [|discriminate].
    destruct Hs as (Ht & Hs & Hf).
    pose proof (nth_error_forallb _ _ _ _ Ht Hn) as Hk.
    pose proof (remove_nth_forallb _ _ i Ht) as Ht'.
    destruct w as [[c mr] d ts tr]. unfold transcript_ok in *.
    cbn [tasks ui db trace cells] in *.
    destruct k.
    2:{ (* the reload *)
      unfold reload_ok in Hk. cbn in Hk.
      destruct rq; try discriminate Hk. destruct ascending; try discriminate Hk.
      apply Nat.eqb_eq in Hk. subst sid.
      destruct o; try discriminate Hserve. destruct ok; cbn in Hserve;
        injection Hserve as <- <-; crunch Hstep; cbn; rewrite Ht'.
      - split; [reflexivity|].
        split; [apply select_chat_messages_ascending
               | apply select_chat_messages_session].
      - now repeat split. }
    all: destruct rp; try discriminate Hstep; crunch Hstep;
      try (apply sendMessage_transcript_ok; unfold transcript_ok);
      cbn; rewrite ?forallb_app, ?Ht'; cbn; rewrite ?Nat.eqb_refl; now repeat split.
  - (* tick *)
    injection Hstep as <-. destruct w as [[c mr] d ts tr]. exact Hs.
Qed.

(** Over every schedule of a mounted view, whatever the user does and
    however the requests in flight settle or overlap, the transcript on
    screen is in ascending order of creation and holds rows of the view's
    own session only. *)
Theorem transcript_always_in_order (st : store) (es : list event) (w : world) :
  run (step sessionId) es (initial st) = Some w ->
  StronglySorted (key_le created_at) (messages (cells (ui w))) /\
  Forall (fun m => session_id m = sessionId) (messages (cells (ui w))).
Proof.
  intros Hrun.
  assert (Hgen : forall es w0 w1, transcript_ok sessionId w0 ->
                   run (step sessionId) es w0 = Some w1 -> transcript_ok sessionId w1).
  { clear. induction es as [|e es IH]; intros w0 w1 Hs Hr; simpl in *.
    - now injection Hr as <-.
    - destruct (step sessionId e w0) as [w2|] eqn:Hstep; [|discriminate].
      eapply IH; [|exact Hr]. eapply step_transcript_ok; eassumption. }
  assert (Hinit : transcript_ok sessionId (initial st)).
  { unfold transcript_ok. cbn. repeat split; constructor. }
  exact (proj2 (Hgen es _ _ Hinit Hrun)).
Qed.

End ChatInvariants.

(* ===================================================================== *)
(** ** The chat view: voice *)
(* ===================================================================== *)

Section VoiceFacts.
Import Js Backend Runtime ChatInterface Scenario.
Variable sessionId : nat.

Ltac crunch Hstep :=
  cbn in Hstep;
  repeat match type of Hstep with
         | Some (match ?x with _ => _ end _) = _ => destruct x
         | Some ((if ?x then _ else _) _) = _ => destruct x
         end;
  injection Hstep as <-.

Lemma sendMessage_voice_ok (r : render) content messageType imageData (w : world) :
  voice_ok w -> voice_ok (sendMessage r content messageType imageData w).
Proof.
  intros (Ht & Hr). unfold sendMessage.
  destruct (send_blocked _ _ _); [now split|].
  destruct w as [[c mr] d ts tr]. unfold voice_ok in *. cbn in *.
  rewrite forallb_app, Ht. now split.
Qed.

Lemma step_voice_ok (e : event) (w w' : world) :
  voice_ok w ->
  step sessionId e w = Some w' ->
  voice_ok w'.
Proof.
  intros Hv Hstep. destruct e; cbn [step] in Hstep.
  - (* mount *)
    injection Hstep as <-. destruct Hv as (Ht & Hr).
    destruct w as [[c mr] d ts tr]. unfold voice_ok in *. cbn in *.
    rewrite !forallb_app, Ht. now split.
  - (* change *)
    destruct (loading (cells (ui w))); [discriminate|]. injection Hstep as <-.
    destruct w as [[c mr] d ts tr]. exact Hv.
  - (* Enter *)
    destruct (loading (cells (ui w))); [discriminate|]. injection Hstep as <-.
    now apply sendMessage_voice_ok.
  - (* Send *)
    destruct (_ || _); [discriminate|]. injection Hstep as <-.
    now apply sendMessage_voice_ok.
  - (* paste *)
    destruct (loading (cells (ui w))); [discriminate|]. injection Hstep as <-.
    rewrite handlePasteImage_spec.
    destruct Hv as (Ht & Hr). unfold voice_ok. cbn.
    rewrite forallb_app, Ht, forallb_image_callbacks by reflexivity.
    now split.
  - (* file *)
    injection Hstep as <-. destruct Hv as (Ht & Hr).
    destruct w as [[c mr] d ts tr], file; unfold voice_ok in *; cbn in *;
      rewrite ?forallb_app, ?Ht; now split.
  - (* microphone *)
    destruct (loading (cells (ui w))) eqn:Hl; [discriminate|]. injection Hstep as <-.
    destruct Hv as (Ht & Hr).
    destruct w as [[c mr] d ts tr]. unfold handleVoiceRecording, voice_ok in *.
    cbn in *. destruct (isRecording c) eqn:Hrec; [destruct mr as [r0|]|]; cbn;
      rewrite ?forallb_app, ?Ht; cbn; rewrite ?Hr, ?Hl; cbn; try (now split).
    destruct mr; now split.
  - (* a request settles *)
    unfold settle in Hstep.
    destruct (nth_error (tasks w) i) as [[rq k]|] eqn:Hn; [|discriminate].
    destruct (serve rq o (db w)) as [[d' rp]|] eqn:Hserve; [|discriminate].
    destruct Hv as (Ht & Hr).
    pose proof (nth_error_forallb _ _ _ _ Ht Hn) as Hk.
    pose proof (remove_nth_forallb _ _ i Ht) as Ht'.
    destruct w as [[c mr] d ts tr]. unfold voice_ok in *.
    cbn [tasks ui db trace cells mediaRecorderRef] in *.
    unfold voice_idle in Hk. cbn [snd] in Hk.
    destruct k; destruct rp; try discriminate Hstep; crunch Hstep;
      try (apply sendMessage_voice_ok; unfold voice_ok);
      cbn; rewrite ?forallb_app, ?Ht'; cbn; rewrite ?Hk; cbn;
      try (now split);
      try (split; [reflexivity | now apply negb_true_iff]).
  - (* tick *)
    injection Hstep as <-. destruct w as [[c mr] d ts tr]. exact Hv.
Qed.

Lemma run_voice_ok (st : store) (es : list event) (w : world) :
  run (step sessionId) es (initial st) = Some w -> voice_ok w.
Proof.
  assert (Hgen : forall es w0 w1, voice_ok w0 ->
                   run (step sessionId) es w0 = Some w1 -> voice_ok w1).
  { clear. induction es as [|e es IH]; intros w0 w1 Hs Hr; simpl in *.
    - now injection Hr as <-.
    - destruct (step sessionId e w0) as [w2|] eqn:Hstep; [|discriminate].
      eapply IH; [|exact Hr]. eapply step_voice_ok; eassumption. }
  apply Hgen. split; reflexivity.
Qed.

(** Over every schedule of a mounted view, a transcription in flight
    belongs to a render whose busy flag is clear (the microphone button is
    disabled while the flag is set): the [sendMessage] call that a
    transcription triggers is stopped by the guard exactly when the text is
    blank, never because a send is in flight. *)
Theorem transcribed_send_ignores_busy_flag
        (st : store) (es : list event) (w : world) i rq (r : render) (txt : string) :
  run (step sessionId) es (initial st) = Some w ->
  nth_error (tasks w) i = Some (rq, K_transcribe r) ->
  send_blocked r txt None = negb (truthy (trim txt)).
Proof.
  intros Hrun Hn.
  destruct (run_voice_ok _ _ _ Hrun) as [Ht _].
  pose proof (nth_error_forallb _ _ _ _ Ht Hn) as Hk.
  unfold voice_idle in Hk. cbn in Hk. apply negb_true_iff in Hk.
  unfold send_blocked. rewrite Hk. cbn. now rewrite andb_true_r, orb_false_r.
Qed.

(** Over every schedule of a mounted view, the recording flag is set only
    while a recorder exists: when the microphone button is clicked during
    a recording there is a recorder to stop. *)
Theorem recording_has_recorder (st : store) (es : list event) (w : world) :
  run (step sessionId) es (initial st) = Some w ->
  isRecording (cells (ui w)) = true ->
  mediaRecorderRef (ui w) <> None.
Proof.
  intros Hrun Hrec. destruct (run_voice_ok _ _ _ Hrun) as [_ Hr].
  destruct (mediaRecorderRef (ui w)); [discriminate | congruence].
Qed.

(** Stopping a recording whose transcription fails (the endpoint reports
    an error, delivers no body, or a body without text): the recording
    flag is cleared, the toast "Failed to transcribe audio" is shown, and
    no send is started; the store, the input, the busy flag and the
    transcript are as before. *)
Theorem transcription_failure_sends_nothing
        (r r0 : render) (audio : string) (res : invoke_result) (w : world) :
  isRecording r = true ->
  mediaRecorderRef (ui w) = Some r0 ->
  (forall txt, res <> InvokeData (Some (Some txt))) ->
  let n := length (tasks w) in
  exists w',
    run (step sessionId) [E_settle n (O_recorded audio); E_settle n (O_invoke res)]
        (handleVoiceRecording r w) = Some w' /\
    calls w' = calls w ++ [RecorderStop; InvokeTranscribe audio] /\
    toasts w' = toasts w ++ [Toast "Error" "Failed to transcribe audio" true] /\
    tasks w' = tasks w /\
    db w' = db w /\
    isRecording (cells (ui w')) = false /\
    loading (cells (ui w')) = loading (cells (ui w)) /\
    currentMessage (cells (ui w')) = currentMessage (cells (ui w)) /\
    messages (cells (ui w')) = messages (cells (ui w)).
Proof.
  intros Hrec Href Hres n. subst n.
  destruct w as [[c mr] d ts tr]. cbn in Href. subst mr.
  unfold handleVoiceRecording. rewrite Hrec. cbn [ui mediaRecorderRef].
  assert (Hk : resume sessionId (K_transcribe r0) (R_invoke res) = Some transcribe_catch).
  { destruct res as [|[[txt|]|]]; try reflexivity. now destruct (Hres txt). }
  eexists. split.
  - cbn [run step andThen].
    erewrite settle_last; [| reflexivity | reflexivity | reflexivity].
    cbn [tasks await andThen ui db trace].
    erewrite settle_last; [| reflexivity | reflexivity | exact Hk].
    reflexivity.
  - cbn. repeat split; try reflexivity.
    + unfold calls. cbn. rewrite !flat_map_app. cbn. now rewrite <- !app_assoc.
    + unfold toasts. cbn. rewrite !filter_app. cbn. now rewrite !app_nil_r.
Qed.

Lemma non_blank_non_empty (s : string) : truthy (trim s) = true -> s <> "".
Proof. intros H ->. discriminate H. Qed.

(** A recording that is stopped, transcribed to a text that is not blank,
    answered by the AI and stored: the new row has kind [voice], the
    transcribed text, untrimmed, as its content, and the AI's reply; the
    audio itself goes to the transcription endpoint only. *)
Theorem voice_turn_is_stored
        (r r0 : render) (audio txt uid : string) (response : option string)
        (update_ok : bool) (w : world) :
  isRecording r = true ->
  mediaRecorderRef (ui w) = Some r0 ->
  loading r0 = false ->
  truthy (trim txt) = true ->
  let n := length (tasks w) in
  exists w',
    run (step sessionId)
        ([E_settle n (O_recorded audio);
          E_settle n (O_invoke (InvokeData (Some (Some txt))))]
         ++ send_events n (Some uid) (InvokeData (Some response)) true update_ok)
        (handleVoiceRecording r w) = Some w' /\
    chat_messages (db w') =
      chat_messages (db w) ++
      [ {| id := next_id (db w); session_id := sessionId; user_id := uid;
           content := txt; message_type := voice; ai_response := response;
           image_url := None; created_at := clock (db w) |} ] /\
    calls w' = calls w ++
               [RecorderStop; InvokeTranscribe audio; AuthGetUser;
                InvokeGeminiChat txt sessionId voice None (systemPrompt r0);
                InsertChatMessage {| n_session_id := sessionId; n_user_id := uid;
                                     n_content := txt; n_message_type := voice;
                                     n_ai_response := response |};
                UpdateSessionTimestamp sessionId;
                SelectChatMessages sessionId true] /\
    isRecording (cells (ui w')) = false /\
    loading (cells (ui w')) = false.
Proof.
  intros Hrec Href Hidle Htxt n. subst n.
  destruct w as [[c mr] d ts tr]. cbn in Href. subst mr.
  unfold handleVoiceRecording. rewrite Hrec. cbn [ui mediaRecorderRef].
  assert (Hg : send_blocked r0 txt None = false).
  { unfold send_blocked. now rewrite Htxt, Hidle. }
  pose proof (or_else_nonempty txt "Image uploaded" (non_blank_non_empty _ Htxt)) as Hor.
  eexists. split.
  - unfold send_events. cbn [app run step andThen].
    erewrite settle_last; [| reflexivity | reflexivity | reflexivity].
    cbn [tasks await andThen ui db trace].
    erewrite settle_last; [| reflexivity | reflexivity | reflexivity].
    rewrite (sendMessage_started _ _ _ _ _ Hg).
    cbn [tasks await andThen ui db trace setLoading on_cells setState].
    erewrite settle_last; [| reflexivity | reflexivity | reflexivity].
    cbn [tasks await andThen ui db trace].
    erewrite settle_last; [| reflexivity | reflexivity | reflexivity].
    cbn [tasks await andThen ui db trace].
    erewrite settle_last; [| reflexivity | reflexivity | reflexivity].
    cbn [tasks await andThen ui db trace].
    erewrite settle_last with (db' := if update_ok then _ else _)
                              (r := R_write (negb update_ok));
      [| reflexivity | destruct update_ok; reflexivity | reflexivity].
    reflexivity.
  - destruct update_ok; cbn -[or_else]; rewrite ?Hor;
      (split; [reflexivity|]); repeat split; try reflexivity;
      unfold calls; cbn -[or_else]; rewrite !flat_map_app; cbn -[or_else];
      rewrite ?Hor; now rewrite <- !app_assoc.
Qed.

(** Loading the session's metadata: when the store returns exactly one
    row for the identifier, the name and the prompt become that row's; when
    it returns none or several, or the query fails, they stay as they are
    and only the error is logged.  Nothing else changes in any case. *)
Theorem fetchSession_outcome (ok : bool) (w : world) :
  let n := length (tasks w) in
  exists w',
    run (step sessionId) [E_settle n (O_store ok)] (fetchSession sessionId w) = Some w' /\
    match (if ok then select_session sessionId (db w) else None) with
    | Some s =>
        sessionName (cells (ui w')) = s_name s /\
        systemPrompt (cells (ui w')) = s_system_prompt s /\
        toasts w' = toasts w /\
        trace w' = trace w ++ [Call (SelectSession sessionId)]
    | None =>
        ui w' = ui w /\
        trace w' = trace w ++ [Call (SelectSession sessionId)]
                           ++ [ConsoleError "Error fetching session:"]
    end /\
    messages (cells (ui w')) = messages (cells (ui w)) /\
    currentMessage (cells (ui w')) = currentMessage (cells (ui w)) /\
    loading (cells (ui w')) = loading (cells (ui w)) /\
    mediaRecorderRef (ui w') = mediaRecorderRef (ui w) /\
    db w' = db w /\ tasks w' = tasks w.
Proof.
  intros n. subst n. destruct w as [[c mr] d ts tr].
  destruct ok; [destruct (select_session sessionId d) as [s|] eqn:Hsel|].
  - eexists. split.
    + cbn [run step fetchSession].
      erewrite settle_last with (r := R_session (Some s) false);
        [| reflexivity | cbn; now rewrite Hsel | reflexivity].
      reflexivity.
    + cbn. rewrite Hsel. repeat split; try reflexivity.
      unfold toasts. cbn. rewrite filter_app. cbn. now rewrite app_nil_r.
  - eexists. split.
    + cbn [run step fetchSession].
      erewrite settle_last with (r := R_session None true);
        [| reflexivity | cbn; now rewrite Hsel | reflexivity].
      reflexivity.
    + cbn. rewrite Hsel. repeat split; try reflexivity. now rewrite <- app_assoc.
  - eexists. split.
    + cbn [run step fetchSession].
      erewrite settle_last; [| reflexivity | reflexivity | reflexivity].
      reflexivity.
    + cbn. repeat split; try reflexivity. now rewrite <- app_assoc.
Qed.

End VoiceFacts.

(* ===================================================================== *)
(** ** The chat view: what its sends store *)
(* ===================================================================== *)

Section ViewSendFacts.
Import Js Backend Runtime ChatInterface Scenario.
Variable sessionId : nat.

Ltac crunch Hstep :=
  cbn in Hstep;
  repeat match type of Hstep with
         | Some (match ?x with _ => _ end _) = _ => destruct x
         | Some ((if ?x then _ else _) _) = _ => destruct x
         end;
  injection Hstep as <-.

Lemma remove_nth_length {X : Type} (l : list X) i t :
  nth_error l i = Some t -> length (remove_nth i l) = length l - 1.
Proof.
  revert i. induction l as [|x l IH]; intros [|i] H; simpl in *; try discriminate.
  - lia.
  - rewrite (IH _ H).
    assert (i < length l) by (apply nth_error_Some; congruence). lia.
Qed.

(** A call of [sendMessage] whose image, if any, comes without content
    parks a send that the guard let through. *)
Lemma sendMessage_own (r : render) content messageType imageData (w : world) :
  negb (truthy_opt imageData) || negb (truthy content) = true ->
  forallb own_send (tasks w) = true ->
  forallb own_send (tasks (sendMessage r content messageType imageData w)) = true.
Proof.
  intros Hin Ht. unfold sendMessage.
  destruct (send_blocked r content imageData) eqn:Hg; [exact Ht|].
  unfold send_blocked in Hg. apply orb_false_iff in Hg. destruct Hg as [Hg _].
  destruct w as [[c mr] d ts tr]. cbn in *.
  rewrite forallb_app, Ht. cbn. unfold own_send, send_input_ok. cbn.
  now rewrite Hg, Hin.
Qed.

Lemma step_own_sends (e : event) (w w' : world) :
  forallb own_send (tasks w) = true ->
  step sessionId e w = Some w' ->
  forallb own_send (tasks w') = true.
Proof.
  intros Ht Hstep. destruct e; cbn [step] in Hstep.
  - (* mount *)
    injection Hstep as <-. destruct w as [[c mr] d ts tr]. cbn in *.
    now rewrite !forallb_app, Ht.
  - (* change *)
    destruct (loading (cells (ui w))); [discriminate|]. injection Hstep as <-.
    destruct w as [[c mr] d ts tr]. exact Ht.
  - (* Enter *)
    destruct (loading (cells (ui w))); [discriminate|]. injection Hstep as <-.
    now apply sendMessage_own.
  - (* Send *)
    destruct (_ || _); [discriminate|]. injection Hstep as <-.
    now apply sendMessage_own.
  - (* paste *)
    destruct (loading (cells (ui w))); [discriminate|]. injection Hstep as <-.
    rewrite handlePasteImage_spec. cbn.
    now rewrite forallb_app, Ht, forallb_image_callbacks by reflexivity.
  - (* file *)
    injection Hstep as <-.
    destruct w as [[c mr] d ts tr], file; cbn in *; rewrite ?forallb_app, ?Ht;
      reflexivity.
  - (* microphone *)
    destruct (loading (cells (ui w))); [discriminate|]. injection Hstep as <-.
    destruct w as [[c mr] d ts tr]. unfold handleVoiceRecording. cbn in *.
    destruct (isRecording c); [destruct mr|]; cbn; rewrite ?forallb_app, ?Ht;
      reflexivity.
  - (* a request settles *)
    unfold settle in Hstep.
    destruct (nth_error (tasks w) i) as [[rq k]|] eqn:Hn; [|discriminate].
    destruct (serve rq o (db w)) as [[d' rp]|] eqn:Hserve; [|discriminate].
    pose proof (remove_nth_forallb _ _ i Ht) as Ht'.
    destruct w as [[c mr] d ts tr]. cbn [tasks ui db trace cells] in *.
    destruct k; destruct rp; try discriminate Hstep; crunch Hstep;
      try (apply sendMessage_own; [cbn; rewrite ?orb_true_r; reflexivity|]);
      cbn; rewrite ?forallb_app, ?Ht'; reflexivity.
  - (* tick *)
    injection Hstep as <-. destruct w as [[c mr] d ts tr]. exact Ht.
Qed.

Lemma run_own_sends (st : store) (es : list event) (w : world) :
  run (step sessionId) es (initial st) = Some w ->
  forallb own_send (tasks w) = true.
Proof.
  assert (Hgen : forall es w0 w1, forallb own_send (tasks w0) = true ->
                   run (step sessionId) es w0 = Some w1 ->
                   forallb own_send (tasks w1) = true).
  { clear. induction es as [|e es IH]; intros w0 w1 Hs Hr; simpl in *.
    - now injection Hr as <-.
    - destruct (step sessionId e w0) as [w2|] eqn:Hstep; [|discriminate].
      eapply IH; [|exact Hr]. eapply step_own_sends; eassumption. }
  apply Hgen. reflexivity.
Qed.

Lemma stored_content_own (content : string) (imageData : option string) :
  send_input_ok content imageData = true ->
  or_else content "Image uploaded" = stored_content content imageData.
Proof.
  unfold send_input_ok, stored_content. intros H.
  apply andb_true_iff in H. destruct H as [H1 H2].
  destruct (truthy (trim content)) eqn:Hb; cbn in *.
  - apply or_else_nonempty. now apply non_blank_non_empty.
  - destruct (truthy_opt imageData); cbn in *; [|discriminate].
    destruct content; [reflexivity | discriminate].
Qed.

(** C3.  Whatever has happened in a view, every send of it that is past
    the guard, with whatever content, kind and image the view called it,
    and that then succeeds (a user is signed in, the AI endpoint delivers a
    body, the insert goes through; the timestamp update may fail) adds one
    row to [chat_messages].  The row's [content] is the placeholder
    ["Image uploaded"] when the content is blank and an image was
    supplied, and the original content, unchanged, otherwise; a blank
    content never comes without an image.  The row's [message_type] is the
    kind passed in, and its [ai_response] is the reply of the AI. *)
Theorem view_send_stored_row
        (st : store) (es : list event) (w : world) (i : nat)
        (r : render) content messageType imageData uid response update_ok :
  run (step sessionId) es (initial st) = Some w ->
  nth_error (tasks w) i
  = Some (AuthGetUser, K_send_getUser r content messageType imageData) ->
  let n := length (tasks w) - 1 in
  exists w' row,
    run (step sessionId)
        [E_settle i (O_user (Some uid));
         E_settle n (O_invoke (InvokeData (Some response)));
         E_settle n (O_store true);
         E_settle n (O_store update_ok)] w = Some w' /\
    chat_messages (db w') = chat_messages (db w) ++ [row] /\
    Backend.content row = stored_content content imageData /\
    (truthy (trim content) = true -> Backend.content row = content) /\
    (truthy (trim content) = false ->
     truthy_opt imageData = true /\ Backend.content row = "Image uploaded") /\
    message_type row = messageType /\
    ai_response row = response /\
    session_id row = sessionId /\
    user_id row = uid.
Proof.
  intros Hrun Hn n. subst n.
  pose proof (nth_error_forallb _ _ _ _ (run_own_sends _ _ _ Hrun) Hn) as Hown.
  unfold own_send in Hown. cbn in Hown.
  pose proof (stored_content_own _ _ Hown) as Hstored.
  pose proof (remove_nth_length _ _ _ Hn) as Hlen.
  destruct w as [[c mr] d ts tr]. cbn [tasks] in *. rewrite <- Hlen.
  eexists. eexists. split.
  - cbn [run step].
    erewrite settle_nth; [| exact Hn | reflexivity | reflexivity].
    cbn [tasks await andThen ui db trace].
    erewrite settle_last; [| reflexivity | reflexivity | reflexivity].
    cbn [tasks await andThen ui db trace].
    erewrite settle_last; [| reflexivity | reflexivity | reflexivity].
    cbn [tasks await andThen ui db trace].
    erewrite settle_last with (db' := if update_ok then _ else _)
                              (r := R_write (negb update_ok));
      [| reflexivity | destruct update_ok; reflexivity | reflexivity].
    reflexivity.
  - cbn -[or_else]. split; [destruct update_ok; reflexivity|].
    cbn -[or_else]. split; [exact Hstored|].
    rewrite Hstored. unfold stored_content.
    repeat split; try reflexivity.
    + intros Hb. now rewrite Hb.
    + unfold send_input_ok in Hown. rewrite H in Hown. cbn in Hown.
      destruct (truthy_opt imageData); [reflexivity | discriminate].
    + unfold send_input_ok in Hown. rewrite H in Hown. cbn in Hown.
      destruct (truthy_opt imageData); [now rewrite H | discriminate].
Qed.

End ViewSendFacts.

(* ===================================================================== *)
(** ** The session directory: listing, failing and double clicks *)
(* ===================================================================== *)

Section DirectoryFacts.
Import Js Backend Runtime SessionDashboard Scenario.

Ltac crunch Hstep :=
  cbn in Hstep;
  repeat match type of Hstep with
         | Some (match ?x with _ => _ end _) = _ => destruct x
         | Some ((if ?x then _ else _) _) = _ => destruct x
         end;
  injection Hstep as <-.

(** When the query of [fetchSessions] succeeds, the list becomes the rows
    of [sessions] returned, whatever it held before: every session once,
    the most recently updated first; the spinner goes away. *)
Theorem fetchSessions_most_recent_first (w : world) :
  let n := length (tasks w) in
  calls (fetchSessions w) = calls w ++ [SelectSessions false] /\
  exists w',
    run step [E_settle n (O_store true)] (fetchSessions w) = Some w' /\
    sessions (ui w') = select_sessions false (db w) /\
    StronglySorted (key_ge s_updated_at) (sessions (ui w')) /\
    Permutation (sessions (ui w')) (Backend.sessions (db w)) /\
    loading (ui w') = false /\
    sessionName (ui w') = sessionName (ui w) /\
    systemPrompt (ui w') = systemPrompt (ui w) /\
    db w' = db w /\ tasks w' = tasks w /\ toasts w' = toasts w.
Proof.
  intros n. subst n. destruct w as [c d ts tr]. split.
  - unfold calls. cbn. rewrite flat_map_app. reflexivity.
  - eexists. split.
    + cbn [run step fetchSessions].
      erewrite settle_last; [| reflexivity | reflexivity | reflexivity].
      reflexivity.
    + destruct (order_by_descending s_updated_at (Backend.sessions d)) as [Hs Hp].
      split; [reflexivity|]. split; [exact Hs|]. split; [exact Hp|].
      cbn. repeat split; try reflexivity.
      unfold toasts. cbn. rewrite filter_app. cbn. now rewrite app_nil_r.
Qed.

(** When the query of [fetchSessions] fails, the list keeps what it held
    (nothing, on mount), the toast "Failed to load sessions" is shown and
    the spinner goes away all the same. *)
Theorem fetchSessions_failure_keeps_list (w : world) :
  let n := length (tasks w) in
  exists w',
    run step [E_settle n (O_store false)] (fetchSessions w) = Some w' /\
    sessions (ui w') = sessions (ui w) /\
    loading (ui w') = false /\
    toasts w' = toasts w ++ [Toast "Error" "Failed to load sessions" true] /\
    sessionName (ui w') = sessionName (ui w) /\
    systemPrompt (ui w') = systemPrompt (ui w) /\
    createDialogOpen (ui w') = createDialogOpen (ui w) /\
    db w' = db w /\ tasks w' = tasks w.
Proof.
  intros n. subst n. destruct w as [c d ts tr]. eexists. split.
  - cbn [run step fetchSessions].
    erewrite settle_last; [| reflexivity | reflexivity | reflexivity].
    reflexivity.
  - cbn. repeat split; try reflexivity.
    unfold toasts. cbn. rewrite !filter_app. cbn. now rewrite !app_nil_r.
Qed.

(** A creation that fails, because no user is signed in or because the
    insert is refused: no row is added, the toast "Failed to create
    session" is shown, [creating] is cleared, and the dialog stays as it
    is, open or not, with the name and the prompt the user entered; no
    reload is started. *)
Theorem createSession_failure_keeps_dialog (r : render) (user : option string) (w : world) :
  truthy (trim (sessionName r)) = true ->
  exists w',
    run step (create_events (length (tasks w)) user false) (createSession r w) = Some w' /\
    db w' = db w /\
    toasts w' = toasts w ++ [Toast "Error" "Failed to create session" true] /\
    creating (ui w') = false /\
    sessionName (ui w') = sessionName (ui w) /\
    systemPrompt (ui w') = systemPrompt (ui w) /\
    createDialogOpen (ui w') = createDialogOpen (ui w) /\
    sessions (ui w') = sessions (ui w) /\
    tasks w' = tasks w.
Proof.
  intros Hg. rewrite (createSession_started _ _ Hg).
  destruct w as [c d ts tr]. unfold create_events.
  destruct user as [uid|]; eexists; (split; [cbn [run step]|]).
  - erewrite settle_last; [| reflexivity | reflexivity | reflexivity].
    cbn [tasks await andThen ui db trace].
    erewrite settle_last; [| reflexivity | reflexivity | reflexivity].
    reflexivity.
  - cbn. repeat split; try reflexivity.
    unfold toasts. cbn. rewrite !filter_app. cbn. now rewrite !app_nil_r.
  - erewrite settle_last; [| reflexivity | reflexivity | reflexivity].
    reflexivity.
  - cbn. repeat split; try reflexivity.
    unfold toasts. cbn. rewrite !filter_app. cbn. now rewrite !app_nil_r.
Qed.

(** A successful creation followed by its reload, in a store whose
    sessions were all updated before now: the new session heads the list on
    screen, followed by the sessions that were there, each once and the
    most recently updated first; the dialog is closed and its fields are
    reset. *)
Theorem created_session_is_listed_first (r : render) uid (w : world) :
  truthy (trim (sessionName r)) = true ->
  Forall (fun s => s_updated_at s < clock (db w)) (Backend.sessions (db w)) ->
  let n := length (tasks w) in
  exists w' rest,
    run step (create_events n (Some uid) true ++ [E_settle n (O_store true)])
        (createSession r w) = Some w' /\
    sessions (ui w') =
      {| s_id := next_id (db w); s_user_id := uid; s_name := sessionName r;
         s_system_prompt := Some (systemPrompt r);
         s_created_at := clock (db w); s_updated_at := clock (db w) |} :: rest /\
    StronglySorted (key_ge s_updated_at) rest /\
    Permutation rest (Backend.sessions (db w)) /\
    createDialogOpen (ui w') = false /\
    sessionName (ui w') = "" /\
    systemPrompt (ui w') = default_prompt /\
    creating (ui w') = false /\
    loading (ui w') = false /\
    tasks w' = tasks w.
Proof.
  intros Hg Hlt n. subst n. rewrite (createSession_started _ _ Hg).
  destruct w as [c d ts tr]. cbn [db] in Hlt.
  destruct (order_by_descending s_updated_at (Backend.sessions d)) as [Hs Hp].
  eexists. exists (order_by s_updated_at false (Backend.sessions d)).
  split; [|split].
  - unfold create_events. cbn [app run step].
    erewrite settle_last; [| reflexivity | reflexivity | reflexivity].
    cbn [tasks await andThen ui db trace].
    erewrite settle_last; [| reflexivity | reflexivity | reflexivity].
    cbn [tasks await andThen ui db trace fetchSessions toast emit setSessionName
         setSystemPrompt setCreateDialogOpen setCreating setState].
    erewrite settle_last; [| reflexivity | reflexivity | reflexivity].
    reflexivity.
  - cbn. unfold select_sessions, order_by. cbn.
    rewrite sort_by_desc_snoc by (cbn; exact Hlt). reflexivity.
  - split; [exact Hs|]. split; [exact Hp|].
    cbn. repeat split; reflexivity.
Qed.

Lemma creates_in_flight_snoc (u : render) d ts tr (t : request * cont) :
  creates_in_flight {| ui := u; db := d; tasks := ts ++ [t]; trace := tr |}
  = length (filter is_create ts) + (if is_create t then 1 else 0).
Proof.
  unfold creates_in_flight. simpl. rewrite filter_app, length_app. simpl.
  destruct (is_create t); reflexivity.
Qed.

Lemma step_create_serialized (e : event) (w w' : world) :
  create_serialized w ->
  step e w = Some w' ->
  create_serialized w'.
Proof.
  intros (Hle & Hidle) Hstep. destruct e; cbn [step] in Hstep.
  - (* mount *)
    injection Hstep as <-. destruct w as [c d ts tr].
    unfold create_serialized, creates_in_flight in *. cbn in *.
    rewrite !filter_app, !length_app. cbn.
    split; [lia | intros H; specialize (Hidle H); lia].
  - destruct (loading (ui w)); [discriminate|]. injection Hstep as <-.
    destruct w as [c d ts tr]. now split.
  - destruct (_ || _); [discriminate|]. injection Hstep as <-.
    destruct w as [c d ts tr]. now split.
  - destruct (_ || _); [discriminate|]. injection Hstep as <-.
    destruct w as [c d ts tr]. now split.
  - (* Create *)
    destruct (loading (ui w) || negb (createDialogOpen (ui w))); [discriminate|].
    cbn in Hstep. destruct (creating (ui w)) eqn:Hc; [discriminate|].
    injection Hstep as <-. specialize (Hidle eq_refl).
    destruct w as [c d ts tr]. unfold createSession. cbn [ui] in *.
    destruct (negb (truthy (trim (sessionName c))));
      unfold create_serialized, creates_in_flight in *; cbn in *;
      rewrite ?filter_app, ?length_app, ?Hidle; cbn;
      (split; [lia | try discriminate; intros _; lia]).
  - (* a request settles *)
    unfold settle in Hstep.
    destruct (nth_error (tasks w) i) as [[rq k]|] eqn:Hn; [|discriminate].
    destruct (serve rq o (db w)) as [[d' rp]|]; [|discriminate].
    pose proof (remove_nth_filter_length is_create _ _ _ Hn) as Hlen.
    destruct w as [c d ts tr]. unfold create_serialized, creates_in_flight in *.
    cbn [tasks ui db trace] in *.
    destruct k; destruct rp; try discriminate Hstep; crunch Hstep; cbn in *;
      rewrite ?filter_app, ?length_app; cbn;
      (split; [lia | try discriminate; intros H; try specialize (Hidle H); lia]).
  - (* tick *)
    injection Hstep as <-. destruct w as [c d ts tr]. now split.
Qed.

(** The Create button cannot be pressed twice for one session: over every
    schedule of a mounted dashboard at most one creation is in flight. *)
Theorem creations_are_serialized (st : store) (es : list event) (w : world) :
  run step es (initial st) = Some w ->
  creates_in_flight w <= 1.
Proof.
  intros Hrun.
  assert (Hgen : forall es w0 w1, create_serialized w0 ->
                   run step es w0 = Some w1 -> create_serialized w1).
  { clear. induction es as [|e es IH]; intros w0 w1 Hs Hr; simpl in *.
    - now injection Hr as <-.
    - destruct (step e w0) as [w2|] eqn:Hstep; [|discriminate].
      eapply IH; [|exact Hr]. eapply step_create_serialized; eassumption. }
  assert (Hinit : create_serialized (initial st)).
  { unfold create_serialized, creates_in_flight. cbn. split; [lia | reflexivity]. }
  exact (proj1 (Hgen es _ _ Hinit Hrun)).
Qed.

End DirectoryFacts.

(* ===================================================================== *)
(** ** The page: who is signed in and what is shown *)
(* ===================================================================== *)

Section PageFacts.
Import Index Scenario.

Lemma step_page_ok (e : event) (w w' : world) :
  page_ok w -> step e w = Some w' -> page_ok w'.
Proof.
  intros [Hu Hl] Hstep. destruct w as [st n]. unfold page_ok in *. cbn in *.
  destruct e; cbn in Hstep.
  - injection Hstep as <-. cbn. split; auto.
  - destruct (render st); try discriminate. injection Hstep as <-. cbn. split; auto.
  - destruct (render st); try discriminate. injection Hstep as <-. cbn. split; auto.
  - destruct (render st) eqn:Hr; try discriminate. injection Hstep as <-. cbn.
    split; [exact Hu|]. intros _. unfold render in Hr.
    destruct (loading st); [discriminate | reflexivity].
  - destruct n as [|k]; [discriminate|]. injection Hstep as <-. cbn.
    assert (Hld : loading st = false) by (apply Hl; discriminate).
    destruct thrown; cbn; split; auto.
Qed.

Lemma run_page_ok (es : list event) (w w' : world) :
  page_ok w -> run es w = Some w' -> page_ok w'.
Proof.
  revert w. induction es as [|e es IH]; intros w Hok Hr; simpl in *.
  - now injection Hr as <-.
  - destruct (step e w) as [w1|] eqn:Hstep; [|discriminate].
    eapply IH; [|exact Hr]. eapply step_page_ok; eassumption.
Qed.

Lemma page_ok_start : page_ok start.
Proof. split; [reflexivity | intros H; now destruct H]. Qed.

(** Over every schedule of the page, with sign-outs settling at any
    moment, the [user] cell is the user of the [session] cell, or null with
    it; so whenever a chat is on screen, a session is present, its user is
    the one recorded, and the chat is the one of the selected session. *)
Theorem page_user_is_session_user (es : list event) (w : world) :
  run es start = Some w ->
  user (cells w) = match session (cells w) with
                   | Some a => Some (session_user a)
                   | None => None
                   end /\
  forall sid, render (cells w) = Chat sid ->
    exists a, session (cells w) = Some a /\ user (cells w) = Some (session_user a) /\
              currentSessionId (cells w) = Some sid /\ loading (cells w) = false.
Proof.
  intros Hrun.
  destruct (run_page_ok _ _ _ page_ok_start Hrun) as [Hu _].
  split; [exact Hu|].
  intros sid Hpage. unfold render in Hpage.
  destruct (loading (cells w)); [discriminate|].
  destruct (user (cells w)) as [u|]; [|discriminate].
  destruct (session (cells w)) as [a|]; [|discriminate].
  destruct (currentSessionId (cells w)) as [sid'|]; [|discriminate].
  injection Hpage as ->. exists a. now repeat split.
Qed.

Lemma auth_run_keeps_selection (es : list event) (w w' : world) :
  forallb is_auth es = true ->
  run es w = Some w' ->
  currentSessionId (cells w') = currentSessionId (cells w).
Proof.
  revert w. induction es as [|e es IH]; intros w Ha Hr; simpl in *.
  - now injection Hr as <-.
  - apply andb_true_iff in Ha. destruct Ha as [He Ha].
    destruct e; try discriminate He. cbn in Hr.
    now rewrite (IH _ Ha Hr).
Qed.

(** When a [signOut()] started by Sign Out resolves, the selection is
    dropped, whatever the page shows by then, a chat opened in the meantime
    included: over the authentication events that follow, the page shows
    the sign-in page or the dashboard, never a chat, whoever signs in
    next. *)
Theorem sign_out_forgets_selection (es0 es : list event) (w w1 w2 : world) :
  run es0 start = Some w ->
  step (E_sign_out_settled false) w = Some w1 ->
  forallb is_auth es = true ->
  run es w1 = Some w2 ->
  currentSessionId (cells w2) = None /\
  (render (cells w2) = AuthPage \/ render (cells w2) = Dashboard).
Proof.
  intros Hreach Hout Hes Hrun.
  pose proof (run_page_ok _ _ _ page_ok_start Hreach) as Hok.
  pose proof (step_page_ok _ _ _ Hok Hout) as Hok1.
  destruct Hok as [_ Hl].
  assert (Hsel1 : currentSessionId (cells w1) = None /\ loading (cells w1) = false).
  { cbn in Hout. destruct (signing_out w) as [|k] eqn:Hn; [discriminate|].
    injection Hout as <-. cbn. split; [reflexivity|]. apply Hl. discriminate. }
  destruct Hsel1 as [Hsel1 Hld1].
  pose proof (auth_run_keeps_selection _ _ _ Hes Hrun) as Hkeep.
  assert (Hld2 : loading (cells w2) = false).
  { clear - Hes Hrun Hld1. revert w1 Hrun Hld1.
    induction es as [|e es IH]; intros w1 Hr Hl1; simpl in *.
    - now injection Hr as <-.
    - apply andb_true_iff in Hes. destruct Hes as [He Ha].
      destruct e; try discriminate He. cbn in Hr.
      eapply IH; [exact Ha | exact Hr | reflexivity]. }
  rewrite Hsel1 in Hkeep. split; [exact Hkeep|].
  unfold render. rewrite Hld2, Hkeep.
  destruct (user (cells w2)), (session (cells w2)); auto.
Qed.

(** An authentication change alone never alters the selection: a page
    that shows a chat and loses its session through the listener shows the
    sign-in page, and shows the same chat again as soon as the listener
    reports a session, whoever its user is. *)
Theorem selection_survives_auth_changes
        (w w' : world) (sid : nat) (es : list event) (a : auth_session) :
  render (cells w) = Chat sid ->
  forallb is_auth es = true ->
  run (es ++ [E_auth (Some a)]) w = Some w' ->
  render (cells w') = Chat sid /\ user (cells w') = Some (session_user a).
Proof.
  intros Hpage Hes Hrun.
  assert (Hsel : currentSessionId (cells w) = Some sid).
  { unfold render in Hpage. destruct (loading (cells w)); [discriminate|].
    destruct (user (cells w)), (session (cells w)), (currentSessionId (cells w));
      try discriminate.
    now injection Hpage as ->. }
  assert (Hsplit : exists w1, run es w = Some w1 /\
                              w' = {| cells := onAuth (Some a) (cells w1);
                                      signing_out := signing_out w1 |}).
  { clear Hpage Hsel. revert w Hrun.
    induction es as [|e es IH]; intros w0 Hr; simpl in *.
    - injection Hr as <-. now exists w0.
    - apply andb_true_iff in Hes. destruct Hes as [He Ha].
      destruct (step e w0) as [w2|]; [|discriminate]. now apply IH. }
  destruct Hsplit as (w1 & Hr1 & ->).
  pose proof (auth_run_keeps_selection _ _ _ Hes Hr1) as Hkeep.
  unfold render. cbn. rewrite Hkeep, Hsel. now split.
Qed.

End PageFacts.

(* ===================================================================== *)
(** ** Further theorems at concrete inputs *)
(* ===================================================================== *)

Section MoreInstances.
Import Js Backend Runtime Scenario.

(** Inserting a session into the sample store. *)
Lemma serve_keeps_timestamps_witness :
  timestamps_ok Sample.store2 /\
  timestamps_ok
    (insert_session {| n_name := "Botany"; n_system_prompt := "Be brief.";
                       n_owner := "u1" |} Sample.store2).
Proof.
  assert (H : timestamps_ok Sample.store2).
  { split; repeat constructor; cbn; lia. }
  split; [exact H|].
  exact (serve_keeps_timestamps
           (InsertSession {| n_name := "Botany"; n_system_prompt := "Be brief.";
                             n_owner := "u1" |})
           (O_store true) Sample.store2 _ _ H eq_refl).
Defined.

(** A typed question that reaches the AI endpoint and gets no body back. *)
Lemma send_outcome_witness :
  ChatInterface.send_blocked (Sample.typed "What is a cell?") "What is a cell?" None
  = false /\
  exists w',
    run (ChatInterface.step 7)
        (send_events 0 (Some "u1") (InvokeData None) true true)
        (ChatInterface.sendMessage (Sample.typed "What is a cell?") "What is a cell?"
                                   text None (ChatInterface.initial Sample.store1))
    = Some w' /\
    ChatInterface.loading (ChatInterface.cells (ui w')) = false /\
    toasts w' = [Toast "Error" "Failed to send message" true] /\
    db w' = Sample.store1.
Proof.
  split; [reflexivity|].
  destruct (send_outcome 7 (Sample.typed "What is a cell?") "What is a cell?" text None
              (Some "u1") (InvokeData None) true true
              (ChatInterface.initial Sample.store1) eq_refl)
    as (w' & Hrun & Hflag & Htoast & _ & _ & _ & _ & Hdb).
  exists w'. split; [exact Hrun|]. split; [exact Hflag|].
  split; [exact Htoast | exact (Hdb eq_refl)].
Defined.

(** A typed question, answered, stored and reloaded. *)
Lemma send_then_reload_shows_turn_witness :
  ChatInterface.send_blocked (Sample.typed "What is a cell?") "What is a cell?" None
  = false /\
  exists w' row,
    run (ChatInterface.step 7)
        (send_events 0 (Some "u1") (InvokeData (Some (Some "A unit of life."))) true true
         ++ [ChatInterface.E_settle 0 (O_store true)])
        (ChatInterface.sendMessage (Sample.typed "What is a cell?") "What is a cell?"
                                   text None (ChatInterface.initial Sample.store1))
    = Some w' /\
    In row (ChatInterface.messages (ChatInterface.cells (ui w'))) /\
    content row = "What is a cell?" /\
    ai_response row = Some "A unit of life.".
Proof.
  split; [reflexivity|].
  destruct (send_then_reload_shows_turn 7 (Sample.typed "What is a cell?")
              "What is a cell?" text None "u1" (Some "A unit of life.") true
              (ChatInterface.initial Sample.store1) eq_refl)
    as (w' & row & Hrun & Hin & _ & Hc & _ & Ha & _).
  exists w', row. split; [exact Hrun|]. split; [exact Hin|].
  split; [exact Hc | exact Ha].
Defined.

(** The third question of the sample session. *)
Lemma transcript_always_in_order_witness :
  run (ChatInterface.step 7) ask_third_question (ChatInterface.initial Sample.store2)
  = Some third_question_view /\
  map id (ChatInterface.messages (ChatInterface.cells (ui third_question_view)))
  = [8; 9; 10] /\
  StronglySorted (key_le created_at)
                 (ChatInterface.messages (ChatInterface.cells (ui third_question_view))).
Proof.
  assert (Hrun : run (ChatInterface.step 7) ask_third_question
                     (ChatInterface.initial Sample.store2) = Some third_question_view)
    by (vm_compute; reflexivity).
  split; [exact Hrun|]. split; [vm_compute; reflexivity|].
  exact (proj1 (transcript_always_in_order 7 Sample.store2 ask_third_question
                  third_question_view Hrun)).
Defined.

(** The third question is on its way to the AI endpoint. *)
Lemma direct_sends_serialized_witness :
  forallb ChatInterface.direct (firstn 6 ask_third_question) = true /\
  run (ChatInterface.step 7) (firstn 6 ask_third_question)
      (ChatInterface.initial Sample.store2) = Some third_question_asked /\
  ChatInterface.sends_in_flight third_question_asked <= 1.
Proof.
  assert (Hrun : run (ChatInterface.step 7) (firstn 6 ask_third_question)
                     (ChatInterface.initial Sample.store2) = Some third_question_asked)
    by (vm_compute; reflexivity).
  split; [vm_compute; reflexivity|]. split; [exact Hrun|].
  exact (direct_sends_serialized 7 Sample.store2 (firstn 6 ask_third_question)
           third_question_asked eq_refl Hrun).
Defined.

(** A recording's transcription is in flight. *)
Lemma transcribed_send_ignores_busy_flag_witness :
  run (ChatInterface.step 7) transcribing (ChatInterface.initial Sample.store1)
  = Some transcribing_view /\
  nth_error (tasks transcribing_view) 0
  = Some (InvokeTranscribe "T2dn", ChatInterface.K_transcribe ChatInterface.initial_cells) /\
  ChatInterface.send_blocked ChatInterface.initial_cells "explain photosynthesis" None
  = negb (truthy (trim "explain photosynthesis")).
Proof.
  assert (Hrun : run (ChatInterface.step 7) transcribing
                     (ChatInterface.initial Sample.store1) = Some transcribing_view)
    by (vm_compute; reflexivity).
  assert (Hn : nth_error (tasks transcribing_view) 0
               = Some (InvokeTranscribe "T2dn",
                       ChatInterface.K_transcribe ChatInterface.initial_cells))
    by (vm_compute; reflexivity).
  split; [exact Hrun|]. split; [exact Hn|].
  exact (transcribed_send_ignores_busy_flag 7 Sample.store1 transcribing
           transcribing_view 0 _ _ "explain photosynthesis" Hrun Hn).
Defined.

(** A recording is on. *)
Lemma recording_has_recorder_witness :
  run (ChatInterface.step 7)
      [ChatInterface.E_mic_click; ChatInterface.E_settle 0 (O_media true)]
      (ChatInterface.initial Sample.store1) = Some recording_view /\
  ChatInterface.isRecording (ChatInterface.cells (ui recording_view)) = true /\
  ChatInterface.mediaRecorderRef (ui recording_view) <> None.
Proof.
  split; [reflexivity|]. split; [reflexivity|].
  exact (recording_has_recorder 7 Sample.store1
           [ChatInterface.E_mic_click; ChatInterface.E_settle 0 (O_media true)]
           recording_view eq_refl eq_refl).
Defined.

(** A recording is stopped and the transcription endpoint reports an error. *)
Lemma transcription_failure_sends_nothing_witness :
  ChatInterface.isRecording (ChatInterface.cells (ui recording_view)) = true /\
  ChatInterface.mediaRecorderRef (ui recording_view) = Some ChatInterface.initial_cells /\
  (forall txt, InvokeError <> InvokeData (Some (Some txt))) /\
  exists w',
    run (ChatInterface.step 7)
        [ChatInterface.E_settle 0 (O_recorded "T2dn");
         ChatInterface.E_settle 0 (O_invoke InvokeError)]
        (ChatInterface.handleVoiceRecording (ChatInterface.cells (ui recording_view))
                                            recording_view) = Some w' /\
    tasks w' = [] /\ db w' = Sample.store1.
Proof.
  assert (Hres : forall txt, InvokeError <> InvokeData (Some (Some txt)))
    by (intros txt; discriminate).
  split; [reflexivity|]. split; [reflexivity|]. split; [exact Hres|].
  destruct (transcription_failure_sends_nothing 7
              (ChatInterface.cells (ui recording_view)) ChatInterface.initial_cells
              "T2dn" InvokeError recording_view eq_refl eq_refl Hres)
    as (w' & Hrun & _ & _ & Htasks & Hdb & _).
  exists w'. split; [exact Hrun|]. split; [exact Htasks | exact Hdb].
Defined.

(** A recording is stopped, transcribed, answered and stored. *)
Lemma voice_turn_is_stored_witness :
  ChatInterface.isRecording (ChatInterface.cells (ui recording_view)) = true /\
  ChatInterface.mediaRecorderRef (ui recording_view) = Some ChatInterface.initial_cells /\
  ChatInterface.loading ChatInterface.initial_cells = false /\
  truthy (trim "explain photosynthesis") = true /\
  exists w',
    run (ChatInterface.step 7)
        ([ChatInterface.E_settle 0 (O_recorded "T2dn");
          ChatInterface.E_settle 0
            (O_invoke (InvokeData (Some (Some "explain photosynthesis"))))]
         ++ send_events 0 (Some "u1") (InvokeData (Some (Some "Light to sugar."))) true true)
        (ChatInterface.handleVoiceRecording (ChatInterface.cells (ui recording_view))
                                            recording_view) = Some w' /\
    map (fun m => (content m, message_type m, ai_response m)) (chat_messages (db w'))
    = [("explain photosynthesis", voice, Some "Light to sugar.")].
Proof.
  split; [reflexivity|]. split; [reflexivity|]. split; [reflexivity|].
  split; [reflexivity|].
  destruct (voice_turn_is_stored 7 (ChatInterface.cells (ui recording_view))
              ChatInterface.initial_cells "T2dn" "explain photosynthesis" "u1"
              (Some "Light to sugar.") true recording_view
              eq_refl eq_refl eq_refl eq_refl)
    as (w' & Hrun & Hrows & _).
  exists w'. split; [exact Hrun|]. rewrite Hrows. reflexivity.
Defined.

(** A creation for which nobody is signed in. *)
Lemma createSession_failure_keeps_dialog_witness :
  truthy (trim (SessionDashboard.sessionName (Sample.dialog "Botany" "Be brief."))) = true /\
  exists w',
    run SessionDashboard.step (create_events 0 None false)
        (SessionDashboard.createSession (Sample.dialog "Botany" "Be brief.")
           {| ui := Sample.dialog "Botany" "Be brief."; db := Sample.store1;
              tasks := []; trace := [] |}) = Some w' /\
    SessionDashboard.sessionName (ui w') = "Botany" /\
    SessionDashboard.systemPrompt (ui w') = "Be brief." /\
    SessionDashboard.createDialogOpen (ui w') = true /\
    db w' = Sample.store1.
Proof.
  split; [reflexivity|].
  destruct (createSession_failure_keeps_dialog (Sample.dialog "Botany" "Be brief.") None
              {| ui := Sample.dialog "Botany" "Be brief."; db := Sample.store1;
                 tasks := []; trace := [] |} eq_refl)
    as (w' & Hrun & Hdb & _ & _ & Hname & Hprompt & Hopen & _).
  exists w'. split; [exact Hrun|]. split; [exact Hname|]. split; [exact Hprompt|].
  split; [exact Hopen | exact Hdb].
Defined.

(** A second session is created in the sample store. *)
Lemma created_session_is_listed_first_witness :
  truthy (trim (SessionDashboard.sessionName (Sample.dialog "Botany" "Be brief."))) = true /\
  Forall (fun s => s_updated_at s < clock Sample.store1) (sessions Sample.store1) /\
  exists w',
    run SessionDashboard.step
        (create_events 0 (Some "u1") true ++ [SessionDashboard.E_settle 0 (O_store true)])
        (SessionDashboard.createSession (Sample.dialog "Botany" "Be brief.")
           {| ui := Sample.dialog "Botany" "Be brief."; db := Sample.store1;
              tasks := []; trace := [] |}) = Some w' /\
    map s_name (SessionDashboard.sessions (ui w')) = ["Botany"; "Algebra Review"].
Proof.
  assert (Hle : Forall (fun s => s_updated_at s < clock Sample.store1)
                       (sessions Sample.store1))
    by (repeat constructor; cbn; lia).
  split; [reflexivity|]. split; [exact Hle|].
  destruct (created_session_is_listed_first (Sample.dialog "Botany" "Be brief.") "u1"
              {| ui := Sample.dialog "Botany" "Be brief."; db := Sample.store1;
                 tasks := []; trace := [] |} eq_refl Hle)
    as (w' & rest & Hrun & Hlist & _ & Hperm & _).
  exists w'. split; [exact Hrun|]. rewrite Hlist. cbn.
  cbn in Hperm. apply Permutation_sym, Permutation_length_1_inv in Hperm.
  now rewrite Hperm.
Defined.

(** Create is pressed once; a second press is not offered. *)
Lemma creations_are_serialized_witness :
  run SessionDashboard.step creating_botany (SessionDashboard.initial Sample.store1)
  = Some botany_pending /\
  SessionDashboard.step SessionDashboard.E_create_click botany_pending = None /\
  creates_in_flight botany_pending <= 1.
Proof.
  assert (Hrun : run SessionDashboard.step creating_botany
                     (SessionDashboard.initial Sample.store1) = Some botany_pending)
    by (vm_compute; reflexivity).
  split; [exact Hrun|]. split; [vm_compute; reflexivity|].
  exact (creations_are_serialized Sample.store1 creating_botany botany_pending Hrun).
Defined.

(** The default prompt, for a session named "Botany". *)
Lemma untouched_prompt_stores_default_witness :
  truthy (trim "Botany") = true /\
  option_map (fun w => map s_system_prompt (sessions (db w)))
    (run SessionDashboard.step
         [SessionDashboard.E_mount; SessionDashboard.E_settle 0 (O_store true);
          SessionDashboard.E_dialog true; SessionDashboard.E_name "Botany";
          SessionDashboard.E_create_click;
          SessionDashboard.E_settle 0 (O_user (Some "u1"));
          SessionDashboard.E_settle 0 (O_store true)]
         (SessionDashboard.initial Sample.empty_store))
  = Some [Some SessionDashboard.default_prompt].
Proof.
  split; [reflexivity|].
  exact (untouched_prompt_stores_default Sample.empty_store "Botany" "u1" eq_refl).
Defined.

(** Alice signs in, opens session 7. *)
Lemma page_user_is_session_user_witness :
  Index.run [Index.E_auth (Some alice); Index.E_select 7] Index.start
  = Some alice_in_chat /\
  Index.user (Index.cells alice_in_chat) = Some "u1" /\
  Index.render (Index.cells alice_in_chat) = Index.Chat 7.
Proof.
  split; [reflexivity|].
  split; [|reflexivity].
  exact (proj1 (page_user_is_session_user
                  [Index.E_auth (Some alice); Index.E_select 7] alice_in_chat eq_refl)).
Defined.

(** Alice presses Sign Out and opens session 7 before [signOut()] has
    resolved; then it resolves, the listener reports the sign-out, and Bob
    signs in. *)
Lemma sign_out_forgets_selection_witness :
  Index.run alice_leaving Index.start = Some alice_left_in_chat /\
  Index.render (Index.cells alice_left_in_chat) = Index.Chat 7 /\
  exists w1 w2,
    Index.step (Index.E_sign_out_settled false) alice_left_in_chat = Some w1 /\
    forallb Index.is_auth [Index.E_auth None; Index.E_auth (Some bob)] = true /\
    Index.run [Index.E_auth None; Index.E_auth (Some bob)] w1 = Some w2 /\
    Index.currentSessionId (Index.cells w2) = None /\
    Index.render (Index.cells w2) = Index.Dashboard.
Proof.
  split; [reflexivity|]. split; [reflexivity|].
  eexists. eexists. split; [reflexivity|]. split; [reflexivity|].
  split; [reflexivity|].
  split; [|reflexivity].
  exact (proj1 (sign_out_forgets_selection alice_leaving
                  [Index.E_auth None; Index.E_auth (Some bob)]
                  alice_left_in_chat _ _ eq_refl eq_refl eq_refl eq_refl)).
Defined.

(** Alice's session ends while she is in a chat, then Bob signs in. *)
Lemma selection_survives_auth_changes_witness :
  Index.render (Index.cells alice_in_chat) = Index.Chat 7 /\
  forallb Index.is_auth [Index.E_auth None] = true /\
  exists w',
    Index.run ([Index.E_auth None] ++ [Index.E_auth (Some bob)]) alice_in_chat
    = Some w' /\
    Index.render (Index.cells w') = Index.Chat 7 /\
    Index.user (Index.cells w') = Some "u2".
Proof.
  split; [reflexivity|]. split; [reflexivity|].
  eexists. split; [reflexivity|].
  exact (selection_survives_auth_changes alice_in_chat _ 7 [Index.E_auth None] bob
           eq_refl eq_refl eq_refl).
Defined.

(** An uploaded image without caption, answered and stored. *)
Lemma view_send_stored_row_witness :
  run (ChatInterface.step 7)
      [ChatInterface.E_file (Some "QUJD"); ChatInterface.E_settle 0 O_loaded]
      (ChatInterface.initial Sample.store1) = Some image_send_pending /\
  nth_error (tasks image_send_pending) 0
  = Some (AuthGetUser,
          ChatInterface.K_send_getUser ChatInterface.initial_cells "" image
                                       (Some "QUJD")) /\
  exists w' row,
    run (ChatInterface.step 7)
        [ ChatInterface.E_settle 0 (O_user (Some "u1"));
          ChatInterface.E_settle 0 (O_invoke (InvokeData (Some (Some "A parabola."))));
          ChatInterface.E_settle 0 (O_store true);
          ChatInterface.E_settle 0 (O_store false) ]
        image_send_pending = Some w' /\
    chat_messages (db w') = [row] /\
    content row = "Image uploaded" /\
    message_type row = image /\
    ai_response row = Some "A parabola.".
Proof.
  assert (Hrun : run (ChatInterface.step 7)
                     [ChatInterface.E_file (Some "QUJD");
                      ChatInterface.E_settle 0 O_loaded]
                     (ChatInterface.initial Sample.store1) = Some image_send_pending)
    by (vm_compute; reflexivity).
  assert (Hn : nth_error (tasks image_send_pending) 0
               = Some (AuthGetUser,
                       ChatInterface.K_send_getUser ChatInterface.initial_cells ""
                                                    image (Some "QUJD")))
    by (vm_compute; reflexivity).
  split; [exact Hrun|]. split; [exact Hn|].
  destruct (view_send_stored_row 7 Sample.store1 _ image_send_pending 0
              ChatInterface.initial_cells "" image (Some "QUJD") "u1"
              (Some "A parabola.") false Hrun Hn)
    as (w' & row & Hdone & Hrows & Hc & _ & _ & Hty & Hai & _).
  exists w', row. split; [exact Hdone|]. split; [exact Hrows|].
  split; [exact Hc|]. split; [exact Hty | exact Hai].
Defined.

End MoreInstances.
